(** * Gmail API E2E test runner: Newman runner and OAuth helper

  A shallow embedding of [scripts/newman_runner.js], [scripts/setup_oauth.js]
  and the dispatch of [scripts/test_runner.sh], with the properties of the
  run options, the command line, the exit code and the token requests.

  JavaScript objects used as dictionaries are [gmap string JSValue];
  effects (network, console, clock, file system, the Newman library) are
  events of a small free monad that is run against an explicit world. *)

From Stdlib Require Import ZArith Ascii.
From stdpp Require Import gmap strings list pretty.

Set Warnings "-register-all".

(** ** JavaScript values and built-ins used by the scripts *)

Module Js.

(** Numbers are the doubles the scripts handle: those with an integer
    value (literals, [parseInt] results, Newman's counters), [NaN] and
    the two infinities; fractions are left out. *)
Inductive JSValue : Type :=
| JUndefined
| JNull
| JBool (b : bool)
| JNum (z : Z)
| JNaN
| JInfinity (negative : bool)
| JStr (s : string)
| JArr (items : list JSValue)
| JObj (fields : list (string * JSValue)).

(** ToBoolean. *)
Definition truthy (v : JSValue) : bool :=
  match v with
  | JUndefined | JNull | JNaN => false
  | JBool b => b
  | JNum z => negb (z =? 0)%Z
  | JInfinity _ => true
  | JStr s => negb (String.eqb s "")
  | JArr _ | JObj _ => true
  end.

(** [a || b]. *)
Definition js_or (a b : JSValue) : JSValue :=
  if truthy a then a else b.

(** [o.k] on a dictionary object: a missing property reads [undefined]. *)
Definition get (o : gmap string JSValue) (k : string) : JSValue :=
  default JUndefined (o !! k).

(** [a || d] where [a] is a string or [undefined] (an element of
    [process.argv] that may be absent) and [d] a string literal. *)
Definition str_or (a : option string) (d : string) : string :=
  match a with
  | Some s => if String.eqb s "" then d else s
  | None => d
  end.

Record JSError : Type := mkError { err_name : string; err_message : string }.

(** What awaiting a promise comes to: it resolves, it rejects, or it
    never settles because an exception left a callback uncaught and
    ended the process. *)
Inductive Completion (A : Type) : Type :=
| Resolved (a : A)
| Rejected (e : JSError)
| Uncaught (e : JSError).
Arguments Resolved {A} a.
Arguments Rejected {A} e.
Arguments Uncaught {A} e.

Definition is_resolved {A} (c : Completion A) : bool :=
  match c with Resolved _ => true | Rejected _ | Uncaught _ => false end.

(** *** Strings *)

Definition lower_ascii (a : ascii) : ascii :=
  let n := N_of_ascii a in
  if ((65 <=? n) && (n <=? 90))%N then ascii_of_N (n + 32) else a.

(** Strings are UTF-8 byte strings.  The Kelvin sign U+212A, bytes
    E2 84 AA, is the one character outside ASCII whose lower case is an
    ASCII letter. *)
Definition is_kelvin_sign (a b c : ascii) : bool :=
  ((N_of_ascii a =? 226) && (N_of_ascii b =? 132) && (N_of_ascii c =? 170))%N.

(** [s.toLowerCase()]: the ASCII letters and the Kelvin sign are mapped;
    the other bytes, whose characters have no ASCII lower case, are
    kept. *)
Fixpoint toLowerCase (s : string) : string :=
  match s with
  | EmptyString => EmptyString
  | String a r =>
      match r with
      | String b (String c r') =>
          if is_kelvin_sign a b c then String "k" (toLowerCase r')
          else String (lower_ascii a) (toLowerCase r)
      | _ => String (lower_ascii a) (toLowerCase r)
      end
  end.

(** [s.repeat(n)]. *)
Fixpoint repeat_str (s : string) (n : nat) : string :=
  match n with
  | O => ""
  | S k => s +:+ repeat_str s k
  end.

(** [s.replace(/[:.]/g, '-')]. *)
Fixpoint replace_colon_dot (s : string) : string :=
  match s with
  | EmptyString => EmptyString
  | String a r =>
      String (if (Ascii.eqb a ":" || Ascii.eqb a ".")%bool then "-"%char else a)
             (replace_colon_dot r)
  end.

(** *** parseInt *)

(** White space and line terminators of one byte: TAB, LF, VT, FF, CR
    and space. *)
Definition is_whitespace (a : ascii) : bool :=
  let n := N_of_ascii a in
  ((n =? 9) || (n =? 10) || (n =? 11) || (n =? 12) || (n =? 13) || (n =? 32))%N.

(** U+00A0, bytes C2 A0. *)
Definition is_whitespace2 (a b : ascii) : bool :=
  ((N_of_ascii a =? 194) && (N_of_ascii b =? 160))%N.

(** U+1680, U+2000 to U+200A, U+2028, U+2029, U+202F, U+205F, U+3000 and
    U+FEFF in UTF-8. *)
Definition is_whitespace3 (a b c : ascii) : bool :=
  let x := N_of_ascii a in
  let y := N_of_ascii b in
  let z := N_of_ascii c in
  (((x =? 225) && (y =? 154) && (z =? 128))
   || ((x =? 226) && (y =? 128)
       && (((128 <=? z) && (z <=? 138)) || (z =? 168) || (z =? 169) || (z =? 175)))
   || ((x =? 226) && (y =? 129) && (z =? 159))
   || ((x =? 227) && (y =? 128) && (z =? 128))
   || ((x =? 239) && (y =? 187) && (z =? 191)))%N.

(** The string without its leading white space. *)
Fixpoint skip_whitespace (s : string) : string :=
  match s with
  | EmptyString => EmptyString
  | String a r =>
      if is_whitespace a then skip_whitespace r
      else
        match r with
        | String b r2 =>
            if is_whitespace2 a b then skip_whitespace r2
            else
              match r2 with
              | String c r3 =>
                  if is_whitespace3 a b c then skip_whitespace r3 else s
              | EmptyString => s
              end
        | EmptyString => s
        end
  end.

Definition digit_value (radix : Z) (a : ascii) : option Z :=
  let n := Z.of_N (N_of_ascii a) in
  let d :=
    if ((48 <=? n) && (n <=? 57))%Z then Some (n - 48)%Z
    else if ((97 <=? n) && (n <=? 122))%Z then Some (n - 87)%Z
    else if ((65 <=? n) && (n <=? 90))%Z then Some (n - 55)%Z
    else None in
  match d with
  | Some v => if (v <? radix)%Z then Some v else None
  | None => None
  end.

(** The longest prefix of digits, read in the radix; [acc] is [None]
    until a first digit is seen. *)
Fixpoint parse_digits (radix : Z) (s : string) (acc : option Z) : option Z :=
  match s with
  | EmptyString => acc
  | String a r =>
      match digit_value radix a with
      | Some d => parse_digits radix r (Some (radix * default 0%Z acc + d)%Z)
      | None => acc
      end
  end.

Definition strip_sign (s : string) : Z * string :=
  match s with
  | String "-" r => ((-1)%Z, r)
  | String "+" r => (1%Z, r)
  | _ => (1%Z, s)
  end.

Definition strip_radix (s : string) : Z * string :=
  match s with
  | String "0" (String "x" r) => (16%Z, r)
  | String "0" (String "X" r) => (16%Z, r)
  | _ => (10%Z, s)
  end.

(** The Number value for an integer: the integer itself below 2^53 in
    magnitude; beyond, the nearest double, which keeps 53 significant
    bits and takes the even neighbour on a tie, and an infinity from
    2^1024 - 2^970 on. *)
Definition number (m : Z) : JSValue :=
  let a := Z.abs m in
  if (a <? 2 ^ 53)%Z then JNum m
  else
    let e := (Z.log2 a - 52)%Z in
    let q := Z.shiftr a e in
    let r := (a - Z.shiftl q e)%Z in
    let half := (2 ^ (e - 1))%Z in
    let q' := if ((half <? r) || ((r =? half) && Z.odd q))%Z%bool
              then (q + 1)%Z else q in
    let v := Z.shiftl q' e in
    if (2 ^ 1024 <=? v)%Z then JInfinity (m <? 0)%Z else JNum (Z.sgn m * v).

(** [parseInt(s)] with no radix argument: the digits are read as an
    integer, and the result is the Number value for it. *)
Definition parseInt_string (s : string) : JSValue :=
  let '(sign, s1) := strip_sign (skip_whitespace s) in
  let '(radix, s2) := strip_radix s1 in
  match parse_digits radix s2 None with
  | Some n => number (sign * n)
  | None => JNaN
  end.

(** [parseInt(a)] where [a] is an element of [process.argv] that may be
    absent: the argument is first converted with ToString. *)
Definition parseInt (a : option string) : JSValue :=
  match a with
  | Some s => parseInt_string s
  | None => parseInt_string "undefined"
  end.


(** *** path.join (POSIX) *)

Fixpoint split_slash_aux (s cur : string) : list string :=
  match s with
  | EmptyString => [cur]
  | String a r =>
      if Ascii.eqb a "/" then cur :: split_slash_aux r ""
      else split_slash_aux r (cur +:+ String a "")
  end.

Definition split_slash (s : string) : list string := split_slash_aux s "".

(** One pass over the segments; [stack] holds the kept segments, last
    first. *)
Fixpoint normalize_segments (absolute : bool) (segs stack : list string)
  : list string :=
  match segs with
  | [] => rev stack
  | seg :: rest =>
      if (String.eqb seg "" || String.eqb seg ".")%bool then
        normalize_segments absolute rest stack
      else if String.eqb seg ".." then
        match stack with
        | top :: below =>
            if String.eqb top ".." then
              normalize_segments absolute rest (seg :: stack)
            else normalize_segments absolute rest below
        | [] =>
            if absolute then normalize_segments absolute rest []
            else normalize_segments absolute rest [seg]
        end
      else normalize_segments absolute rest (seg :: stack)
  end.

Fixpoint join_with (sep : string) (l : list string) : string :=
  match l with
  | [] => ""
  | [x] => x
  | x :: r => x +:+ sep +:+ join_with sep r
  end.

Definition starts_with_slash (s : string) : bool :=
  match s with String a _ => Ascii.eqb a "/" | EmptyString => false end.

Fixpoint ends_with_slash (s : string) : bool :=
  match s with
  | EmptyString => false
  | String a EmptyString => Ascii.eqb a "/"
  | String _ r => ends_with_slash r
  end.

Definition path_normalize (p : string) : string :=
  if String.eqb p "" then "."
  else
    let absolute := starts_with_slash p in
    let trailing := ends_with_slash p in
    let body := join_with "/" (normalize_segments absolute (split_slash p) []) in
    let body :=
      if String.eqb body "" then (if absolute then "" else ".")
      else if trailing then body +:+ "/" else body in
    if absolute then "/" +:+ body else body.

Definition path_join (parts : list string) : string :=
  let used := filter (fun s => s <> "") parts in
  match used with
  | [] => "."
  | _ => path_normalize (join_with "/" used)
  end.

End Js.

(** ** Data exchanged with the outside: HTTP and the Newman library *)

Module Http.
Import Js.

(** The [init] argument of [fetch]; the body is a [URLSearchParams]
    object, kept as its ordered list of entries. *)
Record RequestInit : Type := mkInit {
  method : string;
  headers : list (string * string);
  body : list (string * string) }.

(** What the scripts read from a [Response]: [json_body] is the value
    [response.json()] resolves with, [None] when the body is not JSON. *)
Record Response : Type := mkResponse {
  status : Z;
  statusText : string;
  json_body : option JSValue }.

(** [response.ok]. *)
Definition ok (r : Response) : bool :=
  ((200 <=? status r) && (status r <=? 299))%Z.

Definition keys (entries : list (string * string)) : list string :=
  map fst entries.

(** [o.hasOwnProperty(k)] on a parsed JSON value. *)
Definition has_field (k : string) (v : JSValue) : bool :=
  match v with
  | JObj fields => bool_decide (k ∈ map fst fields)
  | _ => false
  end.

End Http.

Module Newman.
Import Js.

Record Counter : Type := mkCounter { total : Z; failed : Z }.

Record Stats : Type := mkStats {
  iterations : Counter;
  requests : Counter;
  assertions : Counter }.

(** [failure.source]: the item a failure belongs to, with its [name]. *)
Record Source : Type := mkSource { name : option string }.

(** An entry of [summary.run.failures]: [failure.error] and
    [failure.source], which is undefined for a failure that belongs to
    no item. *)
Record Failure : Type := mkFailure {
  error : JSError;
  source : option Source }.

(** [summary.run]: the mean response time is kept in whole
    milliseconds. *)
Record Run : Type := mkRun {
  stats : Stats;
  responseAverage : Z;
  failures : list Failure }.

Record Summary : Type := mkSummary { run : Run }.

(** The two arguments [(err, summary)] of the callback of [newman.run]. *)
Inductive Result : Type :=
| Err (e : JSError)
| Ok (s : Summary).

End Newman.

(** ** Effects *)

Module Node.
Import Js.

Inductive Event : Type -> Type :=
| Fetch (url : string) (init : Http.RequestInit) : Event Http.Response
| DateNow : Event string
| ConsoleLog (line : string) : Event unit
| ConsoleError (line : string) (err : option JSError) : Event unit
| ExistsSync (path : string) : Event bool
| MkdirSync (path : string) : Event unit
| NewmanRun (options : gmap string JSValue) : Event Newman.Result.

(** A script: a value, or an event and what follows its answer. *)
Inductive Prog (A : Type) : Type :=
| Ret (a : A)
| Vis {X : Type} (e : Event X) (k : X -> Prog A).
Arguments Ret {A} a.
Arguments Vis {A X} e k.

Fixpoint bind {A B} (p : Prog A) (f : A -> Prog B) : Prog B :=
  match p with
  | Ret a => f a
  | Vis e k => Vis e (fun x => bind (k x) f)
  end.

Definition trigger {X} (e : Event X) : Prog X := Vis e Ret.

(** [await p] inside an [async] function: a rejection leaves the
    function. *)
Definition await {A B} (p : Prog (Completion A)) (f : A -> Prog (Completion B))
  : Prog (Completion B) :=
  bind p (fun c =>
    match c with
    | Resolved a => f a
    | Rejected e => Ret (Rejected e)
    | Uncaught e => Ret (Uncaught e)
    end).

(** One event of the history of the process, with the answer it got.
    [console.error] is kept with its arguments: the text, and the
    [Error] object when one follows, which Node shows with its stack. *)
Inductive Label : Type :=
| LFetch (url : string) (init : Http.RequestInit) (response : Http.Response)
| LDate (iso : string)
| LLog (line : string)
| LError (line : string) (err : option JSError)
| LExists (path : string) (present : bool)
| LMkdir (path : string)
| LNewman (options : gmap string JSValue) (result : Newman.Result).

(** The outside: the clock, the token server and the Newman library
    answer from the history of the process; [dirs] are the directories
    that exist; [trace] is the history, oldest first. *)
Record World : Type := mkWorld {
  clock : list Label -> string;
  server : list Label -> string -> Http.RequestInit -> Http.Response;
  newman_lib : list Label -> gmap string JSValue -> Newman.Result;
  dirs : gset string;
  trace : list Label }.

Definition record (l : Label) (w : World) : World :=
  {| clock := clock w; server := server w; newman_lib := newman_lib w;
     dirs := dirs w; trace := trace w ++ [l] |}.

Definition make_dir (path : string) (w : World) : World :=
  {| clock := clock w; server := server w; newman_lib := newman_lib w;
     dirs := {[ path ]} ∪ dirs w; trace := trace w |}.

Definition handle {X} (e : Event X) (w : World) : World * X :=
  match e in Event X return World * X with
  | Fetch url init =>
      let response := server w (trace w) url init in
      (record (LFetch url init response) w, response)
  | DateNow =>
      let iso := clock w (trace w) in (record (LDate iso) w, iso)
  | ConsoleLog line => (record (LLog line) w, tt)
  | ConsoleError line err => (record (LError line err) w, tt)
  | ExistsSync path =>
      let present := bool_decide (path ∈ dirs w) in
      (record (LExists path present) w, present)
  | MkdirSync path => (record (LMkdir path) (make_dir path w), tt)
  | NewmanRun options =>
      let result := newman_lib w (trace w) options in
      (record (LNewman options result) w, result)
  end.

(** The world after the events [t]. *)
Definition extend (t : list Label) (w : World) : World :=
  {| clock := clock w; server := server w; newman_lib := newman_lib w;
     dirs := dirs w; trace := trace w ++ t |}.

Fixpoint exec {A} (p : Prog A) (w : World) : World * A :=
  match p with
  | Ret a => (w, a)
  | Vis e k => let '(w', x) := handle e w in exec (k x) w'
  end.

(** Projections of a history. *)
Definition fetches (t : list Label)
  : list (string * Http.RequestInit * Http.Response) :=
  omap (fun l => match l with LFetch u i r => Some (u, i, r) | _ => None end) t.

Definition newman_calls (t : list Label)
  : list (gmap string JSValue * Newman.Result) :=
  omap (fun l => match l with LNewman o r => Some (o, r) | _ => None end) t.

(** The text arguments of the [console] calls. *)
Definition console (t : list Label) : list string :=
  omap (fun l => match l with
                 | LLog s => Some s
                 | LError s _ => Some s
                 | _ => None
                 end) t.

(** [console.log] of each line in turn. *)
Fixpoint log_lines (lines : list string) : Prog unit :=
  match lines with
  | [] => Ret tt
  | l :: r => Vis (ConsoleLog l) (fun _ => log_lines r)
  end.

End Node.

Notation "x <- p ;; q" := (Node.bind p (fun x => q))
(at level 100, p at next level, right associativity).
Notation "p ;;; q" := (Node.bind p (fun _ => q))
(at level 100, right associativity).

(** ** scripts/setup_oauth.js *)

Module OAuth.
Import Js Http Node.

Record GmailOAuthHelper : Type := mkHelper {
  clientId : string;
  clientSecret : string;
  redirectUri : string;
  authUrl : string;
  tokenUrl : string;
  scopes : list string }.

(** [new GmailOAuthHelper(clientId, clientSecret, redirectUri)]; an
    omitted [redirectUri] takes the out-of-band default. *)
Definition new (clientId clientSecret : string) (redirectUri : option string)
  : GmailOAuthHelper :=
  {| clientId := clientId;
     clientSecret := clientSecret;
     redirectUri := default "urn:ietf:wg:oauth:2.0:oob" redirectUri;
     authUrl := "https://accounts.google.com/o/oauth2/auth";
     tokenUrl := "https://oauth2.googleapis.com/token";
     scopes := [ "https://www.googleapis.com/auth/gmail.readonly";
                 "https://www.googleapis.com/auth/gmail.send";
                 "https://www.googleapis.com/auth/gmail.labels";
                 "https://www.googleapis.com/auth/gmail.modify" ] |}.

Definition form_headers : list (string * string) :=
  [ ("Content-Type", "application/x-www-form-urlencoded") ].

Definition exchange_request (h : GmailOAuthHelper) (authorizationCode : string)
  : RequestInit :=
  {| method := "POST";
     headers := form_headers;
     body := [ ("client_id", clientId h);
               ("client_secret", clientSecret h);
               ("code", authorizationCode);
               ("grant_type", "authorization_code");
               ("redirect_uri", redirectUri h) ] |}.

Definition refresh_request (h : GmailOAuthHelper) (refreshToken : string)
  : RequestInit :=
  {| method := "POST";
     headers := form_headers;
     body := [ ("client_id", clientId h);
               ("client_secret", clientSecret h);
               ("refresh_token", refreshToken);
               ("grant_type", "refresh_token") ] |}.

(** [await response.json()]: a body that is not JSON rejects with a
    [SyntaxError]. *)
Definition json (r : Response) : Completion JSValue :=
  match json_body r with
  | Some v => Resolved v
  | None => Rejected (mkError "SyntaxError" "Unexpected token in JSON")
  end.

(** The part of both methods after [fetch] has answered. *)
Definition token_response (failure : string) (r : Response)
  : Completion JSValue :=
  if negb (ok r) then Rejected (mkError "Error" (failure +:+ statusText r))
  else json r.

Definition exchangeCodeForTokens (h : GmailOAuthHelper) (authorizationCode : string)
  : Prog (Completion JSValue) :=
  response <- trigger (Fetch (tokenUrl h) (exchange_request h authorizationCode)) ;;
  Ret (token_response "Token exchange failed: " response).

Definition refreshAccessToken (h : GmailOAuthHelper) (refreshToken : string)
  : Prog (Completion JSValue) :=
  response <- trigger (Fetch (tokenUrl h) (refresh_request h refreshToken)) ;;
  Ret (token_response "Token refresh failed: " response).

(** [n] refreshes in a row, each awaited before the next; the tokens
    obtained are returned, and the first rejection ends the sequence. *)
Fixpoint refresh_times (h : GmailOAuthHelper) (refreshToken : string) (n : nat)
  : Prog (Completion (list JSValue)) :=
  match n with
  | O => Ret (Resolved [])
  | S k =>
      await (refreshAccessToken h refreshToken) (fun token =>
      await (refresh_times h refreshToken k) (fun tokens =>
      Ret (Resolved (token :: tokens))))
  end.

End OAuth.

(** ** scripts/newman_runner.js *)

Module Runner.
Import Js Node.

Record NewmanRunner : Type := mkRunner {
  collectionsDir : string;
  environmentsDir : string;
  dataDir : string;
  reportsDir : string }.

(** [new NewmanRunner()], with [dirname] the directory of the script. *)
Definition new (dirname : string) : Prog NewmanRunner :=
  let this :=
    {| collectionsDir := path_join [dirname; ".."; "collections"];
       environmentsDir := path_join [dirname; ".."; "environments"];
       dataDir := path_join [dirname; ".."; "data"];
       reportsDir := path_join [dirname; ".."; "reports"] |} in
  present <- trigger (ExistsSync (reportsDir this)) ;;
  (if negb present then trigger (MkdirSync (reportsDir this)) else Ret tt) ;;;
  Ret this.

(** The paths [runGmailTests] builds before it calls Newman. *)
Record Paths : Type := mkPaths {
  collectionPath : string;
  environmentPath : string;
  dataPath : string;
  htmlReportPath : string;
  jsonReportPath : string;
  junitReportPath : string }.

Definition paths (this : NewmanRunner) (environment timestamp : string) : Paths :=
  {| collectionPath :=
       path_join [collectionsDir this; "Gmail_API_E2E_Tests.postman_collection.json"];
     environmentPath :=
       path_join [environmentsDir this;
                  "Gmail_API_" +:+ environment +:+ ".postman_environment.json"];
     dataPath := path_join [dataDir this; "test_data.csv"];
     htmlReportPath :=
       path_join [reportsDir this; "gmail-e2e-report-" +:+ timestamp +:+ ".html"];
     jsonReportPath :=
       path_join [reportsDir this; "gmail-e2e-report-" +:+ timestamp +:+ ".json"];
     junitReportPath :=
       path_join [reportsDir this; "gmail-e2e-junit-" +:+ timestamp +:+ ".xml"] |}.

(** The properties written by the object literal before the spread. *)
Definition computed_options (p : Paths) (options : gmap string JSValue)
  : gmap string JSValue :=
  list_to_map
    [ ("collection", JStr (collectionPath p));
      ("environment", JStr (environmentPath p));
      ("data", JStr (dataPath p));
      ("reporters", JArr [JStr "html"; JStr "json"; JStr "junit"; JStr "cli"]);
      ("reporter",
        JObj [ ("html", JObj [("export", JStr (htmlReportPath p))]);
               ("json", JObj [("export", JStr (jsonReportPath p))]);
               ("junit", JObj [("export", JStr (junitReportPath p))]) ]);
      ("iterationCount", js_or (get options "iterations") (JNum 1));
      ("delayRequest", js_or (get options "delay") (JNum 1000));
      ("timeout", js_or (get options "timeout") (JNum 30000));
      ("insecure", JBool false);
      ("bail", js_or (get options "bail") (JBool false));
      ("color", JStr "on") ].

(** [{ ..., ...options }]: the spread copies every property of
    [options] over what the literal has written so far. *)
Definition runOptions (p : Paths) (options : gmap string JSValue)
  : gmap string JSValue :=
  options ∪ computed_options p options.

Definition rule : string := repeat_str "=" 80.

Definition start_lines (this : NewmanRunner) (p : Paths) : list string :=
  [ "🚀 Starting Gmail API E2E Tests...";
    "📁 Collection: " +:+ collectionPath p;
    "🌍 Environment: " +:+ environmentPath p;
    "📊 Data: " +:+ dataPath p;
    "📈 Reports will be saved to: " +:+ reportsDir this;
    rule ].

Definition stats_lines (s : Newman.Summary) : list string :=
  let st := Newman.stats (Newman.run s) in
  [ rule;
    "📊 Test Execution Summary";
    rule;
    "Total Iterations: " +:+ pretty (Newman.total (Newman.iterations st));
    "Total Requests: " +:+ pretty (Newman.total (Newman.requests st));
    "Passed Requests: " +:+
      pretty (Newman.total (Newman.requests st) - Newman.failed (Newman.requests st))%Z;
    "Failed Requests: " +:+ pretty (Newman.failed (Newman.requests st));
    "Total Assertions: " +:+ pretty (Newman.total (Newman.assertions st));
    "Passed Assertions: " +:+
      pretty (Newman.total (Newman.assertions st) - Newman.failed (Newman.assertions st))%Z;
    "Failed Assertions: " +:+ pretty (Newman.failed (Newman.assertions st)) ].

Definition timing_lines (s : Newman.Summary) : list string :=
  [ "Average Response Time: " +:+ pretty (Newman.responseAverage (Newman.run s)) +:+ "ms";
    rule ].

(** The body of the [forEach] callback for the entry at [index]: the
    lines it prints and, when [failure.source] is undefined, the
    [TypeError] that reading its [name] throws after the first line. *)
Definition failure_entry (index : nat) (failure : Newman.Failure)
  : list string * option JSError :=
  let first :=
    pretty (index + 1)%nat +:+ ". " +:+ err_name (Newman.error failure) +:+ ": "
      +:+ err_message (Newman.error failure) in
  match Newman.source failure with
  | Some source =>
      ([ first; "   Source: " +:+ str_or (Newman.name source) "Unknown" ], None)
  | None =>
      ([ first ],
       Some (mkError "TypeError"
                     "Cannot read properties of undefined (reading 'name')"))
  end.

(** [failures.forEach(...)] from [index] on: the first exception ends
    it. *)
Fixpoint each_failure (index : nat) (failures : list Newman.Failure)
  : list string * option JSError :=
  match failures with
  | [] => ([], None)
  | failure :: rest =>
      match failure_entry index failure with
      | (lines, Some e) => (lines, Some e)
      | (lines, None) =>
          let '(more, thrown) := each_failure (S index) rest in
          (lines ++ more, thrown)
      end
  end.

(** The branch on [summary.run.failures.length > 0]: what it prints, and
    the exception that leaves it, if any. *)
Definition failure_lines (s : Newman.Summary) : list string * option JSError :=
  let fs := Newman.failures (Newman.run s) in
  if (0 <? length fs)%nat then
    let '(lines, thrown) := each_failure 0 fs in
    ("❌ Test Failures:" :: lines, thrown)
  else ([ "✅ All tests passed!" ], None).

Definition report_lines (p : Paths) : list string :=
  [ "";
    "📁 Generated Reports:";
    "   HTML Report: " +:+ htmlReportPath p;
    "   JSON Report: " +:+ jsonReportPath p;
    "   JUnit Report: " +:+ junitReportPath p ].

(** The callback handed to [newman.run].  With an error it rejects the
    promise [runGmailTests] returns; with a summary it prints the report
    and resolves the promise, unless the failure list throws: then the
    report stops there, the promise is never settled and the exception
    is uncaught. *)
Definition on_newman_done (p : Paths) (res : Newman.Result)
  : Prog (Completion Newman.Summary) :=
  match res with
  | Newman.Err err =>
      trigger (ConsoleError "❌ Newman run failed:" (Some err)) ;;;
      Ret (Rejected err)
  | Newman.Ok summary =>
      let '(lines, thrown) := failure_lines summary in
      log_lines (stats_lines summary ++ timing_lines summary ++ lines) ;;;
      match thrown with
      | Some e => Ret (Uncaught e)
      | None => log_lines (report_lines p) ;;; Ret (Resolved summary)
      end
  end.

(** The exception that leaves the callback, if any. *)
Definition callback_error (s : Newman.Summary) : option JSError :=
  (failure_lines s).2.

(** How the promise settles, and what the callback prints. *)
Definition settle (res : Newman.Result) : Completion Newman.Summary :=
  match res with
  | Newman.Err err => Rejected err
  | Newman.Ok summary =>
      match callback_error summary with
      | Some e => Uncaught e
      | None => Resolved summary
      end
  end.

Definition done_trace (p : Paths) (res : Newman.Result) : list Label :=
  match res with
  | Newman.Err err => [LError "❌ Newman run failed:" (Some err)]
  | Newman.Ok summary =>
      map LLog (stats_lines summary ++ timing_lines summary
                ++ (failure_lines summary).1
                ++ match callback_error summary with
                   | Some _ => []
                   | None => report_lines p
                   end)
  end.

(** The exit code of the process, from the answer of Newman: 0 after
    [process.exit(0)], 1 after [process.exit(1)] and after an uncaught
    exception. *)
Definition exit_code_of (res : Newman.Result) : Z :=
  match res with
  | Newman.Ok summary =>
      match callback_error summary with Some _ => 1 | None => 0 end
  | Newman.Err _ => 1
  end.

(** [runGmailTests(environment = 'Development', options = {})]; an
    omitted argument is [None]. *)
Definition runGmailTests (this : NewmanRunner) (environment : option string)
    (options : option (gmap string JSValue)) : Prog (Completion Newman.Summary) :=
  let environment := default "Development" environment in
  let options := default ∅ options in
  iso <- trigger DateNow ;;
  let p := paths this environment (replace_colon_dot iso) in
  log_lines (start_lines this p) ;;;
  res <- trigger (NewmanRun (runOptions p options)) ;;
  on_newman_done p res.

Definition smokeOptions : gmap string JSValue :=
  list_to_map
    [ ("folder", JArr [JStr "Authentication"; JStr "Profile & User Info"]);
      ("bail", JBool true);
      ("iterations", JNum 1) ].

Definition runSmokeTests (this : NewmanRunner) (environment : option string)
  : Prog (Completion Newman.Summary) :=
  let environment := default "Development" environment in
  trigger (ConsoleLog "🔥 Running Gmail API Smoke Tests...") ;;;
  runGmailTests this (Some environment) (Some smokeOptions).

Definition performanceOptions (iterations : JSValue) : gmap string JSValue :=
  list_to_map
    [ ("iterations", iterations);
      ("delay", JNum 500);
      ("bail", JBool false) ].

(** [runPerformanceTests(environment = 'Development', iterations = 5)]. *)
Definition runPerformanceTests (this : NewmanRunner) (environment : option string)
    (iterations : option JSValue) : Prog (Completion Newman.Summary) :=
  let environment := default "Development" environment in
  let iterations :=
    match iterations with
    | None | Some JUndefined => JNum 5
    | Some v => v
    end in
  trigger (ConsoleLog "⚡ Running Gmail API Performance Tests...") ;;;
  runGmailTests this (Some environment) (Some (performanceOptions iterations)).

(** [const command = args[0] || 'full'] and
    [const environment = args[1] || 'Development'], with [args] the
    command line after [process.argv.slice(2)]. *)
Definition command (args : list string) : string :=
  str_or (args !! 0%nat) "full".

Definition environment (args : list string) : string :=
  str_or (args !! 1%nat) "Development".

(** The [switch] of [main]. *)
Definition dispatch (this : NewmanRunner) (args : list string)
  : Prog (Completion Newman.Summary) :=
  let selector := toLowerCase (command args) in
  if String.eqb selector "smoke" then
    runSmokeTests this (Some (environment args))
  else if String.eqb selector "performance" then
    let iterations := js_or (parseInt (args !! 2%nat)) (JNum 5) in
    runPerformanceTests this (Some (environment args)) (Some iterations)
  else
    runGmailTests this (Some (environment args)) None.

(** What follows the [switch]: [process.exit(0)] when the awaited promise
    resolved, the [catch] block and [process.exit(1)] when it rejected.
    After an uncaught exception [main] is not resumed: Node reports the
    exception itself and the process ends with code 1.  The value of the
    program is the exit code. *)
Definition finish (outcome : Completion Newman.Summary) : Prog Z :=
  match outcome with
  | Resolved _ =>
      trigger (ConsoleLog "🎉 Test execution completed!") ;;; Ret 0%Z
  | Rejected error =>
      trigger (ConsoleError ("💥 Test execution failed: " +:+ err_message error)
                            None) ;;;
      Ret 1%Z
  | Uncaught _ => Ret 1%Z
  end.

Definition main (this : NewmanRunner) (args : list string) : Prog Z :=
  outcome <- dispatch this args ;; finish outcome.

(** The script run as [node scripts/newman_runner.js ...]: [argv] is
    [process.argv]. *)
Definition script (dirname : string) (argv : list string) : Prog Z :=
  runner <- new dirname ;; main runner (drop 2 argv).

End Runner.

(** ** scripts/test_runner.sh *)

Module Shell.

(** [run_tests]: the [node] command line it runs, or [None] where it
    prints "Unknown test type" and exits with status 1. *)
Definition run_tests (test_type environment iterations : string)
  : option (list string) :=
  if String.eqb test_type "smoke" then
    Some ["node"; "scripts/newman_runner.js"; "smoke"; environment]
  else if String.eqb test_type "full" then
    Some ["node"; "scripts/newman_runner.js"; "full"; environment]
  else if String.eqb test_type "performance" then
    Some ["node"; "scripts/newman_runner.js"; "performance"; environment; iterations]
  else None.

End Shell.

(** ** Notions of the specification used to state the properties *)

Module Spec.
Import Js.

(** Modelled from the spec: the terminal states of the Run Sequencer
    (section 4.4), which is the Newman library and not a script of this
    repository.  A run that records a failed assertion, a failed request
    or a failure entry ends [Failed], or [Aborted] when the bail policy
    stopped it; any other run ends [Completed]. *)
Inductive RunState : Type := Completed | Failed | Aborted.

Definition records_failure (s : Newman.Summary) : bool :=
  let st := Newman.stats (Newman.run s) in
  ((0 <? Newman.failed (Newman.assertions st))%Z
   || (0 <? Newman.failed (Newman.requests st))%Z
   || (0 <? length (Newman.failures (Newman.run s)))%nat).

Definition terminal_state (bailed : bool) (s : Newman.Summary) : RunState :=
  if records_failure s then (if bailed then Aborted else Failed)
  else Completed.

(** Modelled from the spec: a collection is an ordered sequence of
    folders, each an ordered sequence of requests (section 3); requests
    are kept by name. *)
Record Folder : Type := mkFolder {
  folder_name : string;
  folder_requests : list string }.

(** The folder filter carried by run options: the [folder] property, a
    name or an array of names. *)
Definition folderFilter (o : gmap string JSValue) : option (list string) :=
  match o !! "folder" with
  | Some (JArr items) =>
      Some (omap (fun v => match v with JStr s => Some s | _ => None end) items)
  | Some (JStr s) => Some [s]
  | _ => None
  end.

Definition in_filter (filter : option (list string)) (f : Folder) : bool :=
  match filter with
  | None => true
  | Some names => bool_decide (folder_name f ∈ names)
  end.

(** Modelled from the spec: the selection made by the Run Sequencer
    (section 4.4), which is the Newman library: the requests whose
    containing folder is named by the filter, or all when it is unset,
    in collection order.  Each request comes with its folder. *)
Fixpoint selected (collection : list Folder) (filter : option (list string))
  : list (string * string) :=
  match collection with
  | [] => []
  | f :: rest =>
      (if in_filter filter f
       then map (pair (folder_name f)) (folder_requests f) else [])
      ++ selected rest filter
  end.



(** What two Newman summaries share when only response times differ:
    the counters and the failures. *)
Definition verdicts (s : Newman.Summary) : Newman.Stats * list Newman.Failure :=
  (Newman.stats (Newman.run s), Newman.failures (Newman.run s)).

(** Two answers of [newman.run] with the same error, or with the same
    verdicts. *)
Definition same_verdicts (r1 r2 : Newman.Result) : Prop :=
  match r1, r2 with
  | Newman.Err e1, Newman.Err e2 => e1 = e2
  | Newman.Ok s1, Newman.Ok s2 => verdicts s1 = verdicts s2
  | _, _ => False
  end.

(** The same for the promise that [runGmailTests] returns. *)
Definition same_decision (c1 c2 : Completion Newman.Summary) : Prop :=
  match c1, c2 with
  | Rejected e1, Rejected e2 => e1 = e2
  | Uncaught e1, Uncaught e2 => e1 = e2
  | Resolved s1, Resolved s2 => verdicts s1 = verdicts s2
  | _, _ => False
  end.

End Spec.

(** ** Concrete runs *)

Module Sample.
Import Js Node.

Definition helper : OAuth.GmailOAuthHelper :=
  OAuth.new "client-id" "client-secret" None.

Definition token : JSValue :=
  JObj [ ("access_token", JStr "ya29.a0abc");
         ("expires_in", JNum 3600);
         ("token_type", JStr "Bearer") ].

(** A payload without [access_token]. *)
Definition malformed : JSValue :=
  JObj [ ("expires_in", JNum 3600); ("token_type", JStr "Bearer") ].

Definition counters (requests_failed assertions_failed : Z) : Newman.Stats :=
  Newman.mkStats (Newman.mkCounter 1 0)
                 (Newman.mkCounter 5 requests_failed)
                 (Newman.mkCounter 9 assertions_failed).

Definition passing (responseAverage : Z) : Newman.Summary :=
  Newman.mkSummary (Newman.mkRun (counters 0 0) responseAverage []).

Definition failing : Newman.Summary :=
  Newman.mkSummary
    (Newman.mkRun (counters 0 1) 120
       [ Newman.mkFailure (mkError "AssertionError" "expected 401 to equal 200")
                          (Some (Newman.mkSource (Some "Get User Profile"))) ]).

(** A summary with a failure that belongs to no item. *)
Definition unsourced : Newman.Summary :=
  Newman.mkSummary
    (Newman.mkRun (counters 1 0) 120
       [ Newman.mkFailure (mkError "Error" "getaddrinfo ENOTFOUND gmail.googleapis.com")
                          None ]).

(** A world whose token server answers [payload] with status [status]
    and whose Newman run answers [result]. *)
Definition world (iso : string) (status : Z) (payload : option JSValue)
    (result : Newman.Result) : World :=
  {| clock := fun _ => iso;
     server := fun _ _ _ =>
       Http.mkResponse status
         (if (status =? 200)%Z then "OK" else "Unauthorized") payload;
     newman_lib := fun _ _ => result;
     dirs := ∅;
     trace := [] |}.

Definition runner : Runner.NewmanRunner :=
  Runner.mkRunner "/repo/collections" "/repo/environments" "/repo/data"
                  "/repo/reports".

Definition paths : Runner.Paths :=
  Runner.paths runner "Development" "2026-11-03T10-20-30-123Z".

Definition collection : list Spec.Folder :=
  [ Spec.mkFolder "Authentication" ["Get OAuth Token"];
    Spec.mkFolder "Profile & User Info" ["Get User Profile"];
    Spec.mkFolder "Labels Management" ["List Labels"; "Create Label"];
    Spec.mkFolder "Messages" ["List Messages"; "Send Email"];
    Spec.mkFolder "Cleanup" ["Delete Label"] ].

End Sample.

(** ** Form encoding, as [URLSearchParams] and [URL] do it *)

Module Form.
Import Js.

(** The bytes the serializer leaves as they are: ASCII letters and
    digits, and the four characters * - . _ *)
Definition is_unreserved (a : ascii) : bool :=
  let n := N_of_ascii a in
  (((48 <=? n) && (n <=? 57)) || ((65 <=? n) && (n <=? 90))
   || ((97 <=? n) && (n <=? 122))
   || (n =? 42) || (n =? 45) || (n =? 46) || (n =? 95))%N.

Definition hex_digit (n : N) : ascii :=
  match n with
  | 0 => "0" | 1 => "1" | 2 => "2" | 3 => "3" | 4 => "4" | 5 => "5"
  | 6 => "6" | 7 => "7" | 8 => "8" | 9 => "9" | 10 => "A" | 11 => "B"
  | 12 => "C" | 13 => "D" | 14 => "E" | _ => "F"
  end%char%N.

Definition hex_value (a : ascii) : option N :=
  let n := N_of_ascii a in
  if ((48 <=? n) && (n <=? 57))%N then Some (n - 48)%N
  else if ((65 <=? n) && (n <=? 70))%N then Some (n - 55)%N
  else if ((97 <=? n) && (n <=? 102))%N then Some (n - 87)%N
  else None.

(** One byte of a name or value on the wire: itself, [+] for a space, or
    a percent escape. *)
Definition encode_byte (a : ascii) : string :=
  if is_unreserved a then String a ""
  else if Ascii.eqb a " " then "+"
  else
    let n := N_of_ascii a in
    String "%" (String (hex_digit (n / 16)) (String (hex_digit (n mod 16)) "")).

Fixpoint encode (s : string) : string :=
  match s with
  | EmptyString => EmptyString
  | String a r => encode_byte a +:+ encode r
  end.

(** [params.toString()]: [name=value] pairs joined by [&]. *)
Definition pair_string (entry : string * string) : string :=
  encode entry.1 +:+ "=" +:+ encode entry.2.

Definition serialize (entries : list (string * string)) : string :=
  join_with "&" (map pair_string entries).

(** The reading side: [+] is a space and a percent sign followed by two
    hexadecimal digits is the byte they name. *)
Fixpoint decode (s : string) : string :=
  match s with
  | EmptyString => EmptyString
  | String a r =>
      if Ascii.eqb a "+" then String " " (decode r)
      else if Ascii.eqb a "%" then
        match r with
        | String h (String l r') =>
            match hex_value h, hex_value l with
            | Some x, Some y => String (ascii_of_N (16 * x + y)) (decode r')
            | _, _ => String a (decode r)
            end
        | _ => String a (decode r)
        end
      else String a (decode r)
  end.

Fixpoint split_on (sep : ascii) (s : string) : list string :=
  match s with
  | EmptyString => [EmptyString]
  | String a r =>
      if Ascii.eqb a sep then EmptyString :: split_on sep r
      else
        match split_on sep r with
        | x :: xs => String a x :: xs
        | [] => [String a EmptyString]
        end
  end.

(** A sequence cut at its first [=]; the value is empty when there is
    none. *)
Fixpoint break_eq (s : string) : string * string :=
  match s with
  | EmptyString => (EmptyString, EmptyString)
  | String a r =>
      if Ascii.eqb a "=" then (EmptyString, r)
      else (String a (break_eq r).1, (break_eq r).2)
  end.

(** [new URLSearchParams(s)] on a query string: the sequences between
    [&], the empty ones dropped, each cut at its first [=] and decoded. *)
Definition parse (s : string) : list (string * string) :=
  map (fun seq => (decode (break_eq seq).1, decode (break_eq seq).2))
      (filter (fun seq => seq <> EmptyString) (split_on "&" s)).

Fixpoint occurs (c : ascii) (s : string) : bool :=
  match s with
  | EmptyString => false
  | String a r => (Ascii.eqb a c || occurs c r)%bool
  end.

Fixpoint all_chars (P : ascii -> bool) (s : string) : bool :=
  match s with
  | EmptyString => true
  | String a r => (P a && all_chars P r)%bool
  end.

(** The characters of a URL made of a plain prefix and a serialized
    query. *)
Definition is_url_char (a : ascii) : bool :=
  (is_unreserved a
   || Ascii.eqb a "%" || Ascii.eqb a "+" || Ascii.eqb a "=" || Ascii.eqb a "&"
   || Ascii.eqb a ":" || Ascii.eqb a "/" || Ascii.eqb a "?")%bool.

End Form.

(** ** scripts/setup_oauth.js: the authorization URL *)

Module AuthUrl.
Import Js OAuth.

(** What [generateAuthUrl] uses of a [URL] object: the text up to the
    query, and the query as [searchParams]. *)
Record URL : Type := mkURL {
  href_base : string;
  searchParams : list (string * string) }.

(** [new URL(s)] for an absolute URL [s] without query or fragment, which
    the [authUrl] set by the constructor is. *)
Definition URL_new (s : string) : URL :=
  {| href_base := s; searchParams := [] |}.

Fixpoint remove_name (name : string) (entries : list (string * string))
  : list (string * string) :=
  match entries with
  | [] => []
  | (k, v) :: r =>
      if String.eqb k name then remove_name name r
      else (k, v) :: remove_name name r
  end.

(** [searchParams.set(name, value)]: the first pair of that name gets the
    value and the others go; with no such pair one is appended. *)
Fixpoint set_param (name value : string) (entries : list (string * string))
  : list (string * string) :=
  match entries with
  | [] => [(name, value)]
  | (k, v) :: r =>
      if String.eqb k name then (name, value) :: remove_name name r
      else (k, v) :: set_param name value r
  end.

Definition set (name value : string) (u : URL) : URL :=
  {| href_base := href_base u;
     searchParams := set_param name value (searchParams u) |}.

(** [url.toString()]. *)
Definition toString (u : URL) : string :=
  match searchParams u with
  | [] => href_base u
  | entries => href_base u +:+ "?" +:+ Form.serialize entries
  end.

Definition auth_url (h : GmailOAuthHelper) : URL :=
  set "prompt" "consent"
    (set "access_type" "offline"
      (set "response_type" "code"
        (set "scope" (join_with " " (scopes h))
          (set "redirect_uri" (redirectUri h)
            (set "client_id" (clientId h)
              (URL_new (authUrl h))))))).

Definition generateAuthUrl (h : GmailOAuthHelper) : string :=
  toString (auth_url h).

End AuthUrl.

(** ** scripts/test_runner.sh: validation and the main dispatch *)

Module TestRunner.
Import Js.

(** The functions [main] calls whose bodies are left to the system: each
    ends with an exit status, and a status other than 0 ends the script
    ([set -e], or their own [exit 1]). *)
Inductive Step : Type :=
| CheckPrerequisites
| CleanReports
| Node (argv : list string)
| ShowResults.

(** What the script prints itself, and the steps it takes. *)
Inductive Line : Type :=
| Status (msg : string)
| Success (msg : string)
| Warning (msg : string)
| Error (msg : string)
| Usage
| Did (step : Step).

(** The regular files with their content, and the exit status of each
    step. *)
Record System : Type := mkSystem {
  files : gmap string string;
  status : Step -> Z }.

(** A piece of script run to its end: the lines, and the exit status if
    the script has exited. *)
Definition Run : Type := list Line * option Z.

Definition and_then (a b : Run) : Run :=
  match a.2 with
  | Some _ => a
  | None => (a.1 ++ b.1, b.2)
  end.

Definition skip : Run := ([], None).
Definition say (l : Line) : Run := ([l], None).
Definition exit (code : Z) : Run := ([], Some code).

Definition call (sys : System) (step : Step) : Run :=
  ([Did step], if (status sys step =? 0)%Z then None else Some (status sys step)).

(** The exit status of the script: that of its [exit], or 0 at the end
    of [main]. *)
Definition exit_status (r : Run) : Z := default 0%Z r.2.

Fixpoint is_prefix (p s : string) : bool :=
  match p with
  | EmptyString => true
  | String a p' =>
      match s with
      | String b s' => (Ascii.eqb a b && is_prefix p' s')%bool
      | EmptyString => false
      end
  end.

(** [grep -q needle file], for a needle without line break or special
    character: some line has it as a substring. *)
Fixpoint contains (needle hay : string) : bool :=
  (is_prefix needle hay
   || match hay with
      | EmptyString => false
      | String _ r => contains needle r
      end)%bool.

(** A word between double quotes. *)
Definition quoted (s : string) : string :=
  String "034"%char (s +:+ String "034"%char EmptyString).

Definition validate_environment (sys : System) (env_file : string) : Run :=
  and_then (say (Status ("Validating environment: " +:+ env_file)))
    match files sys !! env_file with
    | None =>
        and_then (say (Error ("Environment file not found: " +:+ env_file)))
                 (exit 1)
    | Some content =>
        if (negb (contains (quoted "client_id") content)
            || negb (contains (quoted "client_secret") content))%bool
        then
          and_then (say (Error "Environment file is missing required OAuth credentials"))
          (and_then (say (Warning ("Please update " +:+ env_file
                                   +:+ " with your OAuth client_id and client_secret")))
                    (exit 1))
        else say (Success "Environment validation passed!")
    end.

(** [run_tests] with its message; the command line is [Shell.run_tests]. *)
Definition run_tests (sys : System) (test_type environment iterations : string)
  : Run :=
  and_then (say (Status ("Running " +:+ test_type +:+ " tests in " +:+ environment
                         +:+ " environment...")))
    match Shell.run_tests test_type environment iterations with
    | Some argv => call sys (Node argv)
    | None =>
        and_then (say (Error ("Unknown test type: " +:+ test_type))) (exit 1)
    end.

(** The local variables of [main] that the options set. *)
Record Flags : Type := mkFlags {
  iterations : string;
  clean_before : bool;
  validate_env : bool }.

Definition default_flags : Flags :=
  {| iterations := "5"; clean_before := false; validate_env := false |}.

Inductive Parsed : Type :=
| Options (f : Flags)
| Help
| UnknownOption (word : string)
| ShiftFailed.

(** The [while] loop over the words after the first two.  [--iterations]
    as last word leaves nothing for [shift 2], which fails and ends the
    script. *)
Fixpoint parse_options (words : list string) (f : Flags) : Parsed :=
  match words with
  | [] => Options f
  | word :: rest =>
      if String.eqb word "--iterations" then
        match rest with
        | value :: rest' =>
            parse_options rest'
              {| iterations := value; clean_before := clean_before f;
                 validate_env := validate_env f |}
        | [] => ShiftFailed
        end
      else if String.eqb word "--clean" then
        parse_options rest
          {| iterations := iterations f; clean_before := true;
             validate_env := validate_env f |}
      else if String.eqb word "--validate" then
        parse_options rest
          {| iterations := iterations f; clean_before := clean_before f;
             validate_env := true |}
      else if (String.eqb word "--help" || String.eqb word "-h")%bool then Help
      else UnknownOption word
  end.

Definition environment_file (environment : string) : string :=
  "environments/Gmail_API_" +:+ environment +:+ ".postman_environment.json".

Definition is_test_command (command : string) : bool :=
  (String.eqb command "smoke" || String.eqb command "full"
   || String.eqb command "performance")%bool.

(** The [case $command] of [main]. *)
Definition run_command (sys : System) (command environment : string) (f : Flags)
  : Run :=
  if String.eqb command "setup" then
    and_then (call sys CheckPrerequisites)
             (say (Success "Setup completed successfully!"))
  else if String.eqb command "clean" then call sys CleanReports
  else if is_test_command command then
    and_then (call sys CheckPrerequisites)
    (and_then (if validate_env f
               then validate_environment sys (environment_file environment)
               else skip)
    (and_then (if clean_before f then call sys CleanReports else skip)
    (and_then (run_tests sys command environment (iterations f))
              (call sys ShowResults))))
  else if (String.eqb command "help" || String.eqb command "--help"
           || String.eqb command "-h")%bool then say Usage
  else
    and_then (say (Error ("Unknown command: " +:+ command)))
             (and_then (say Usage) (exit 1)).

(** [main "$@"]. *)
Definition main (sys : System) (args : list string) : Run :=
  let command := str_or (args !! 0%nat) "smoke" in
  let environment := str_or (args !! 1%nat) "Development" in
  match parse_options (drop 2 args) default_flags with
  | Help => and_then (say Usage) (exit 0)
  | UnknownOption word =>
      and_then (say (Error ("Unknown option: " +:+ word)))
               (and_then (say Usage) (exit 1))
  | ShiftFailed => exit 1
  | Options f => run_command sys command environment f
  end.

End TestRunner.

(** * Properties *)

Section Execution.
Import Js Node.

Lemma exec_bind {A B} (p : Prog A) (f : A -> Prog B) (w : World) :
  exec (bind p f) w = exec (f (exec p w).2) (exec p w).1.
Proof.
  revert w. induction p as [a | X e k IH]; intros w; simpl; [done |].
  destruct (handle e w) as [w' x]. apply IH.
Qed.

Lemma extend_nil (w : World) : extend [] w = w.
Proof. destruct w. unfold extend. simpl. by rewrite app_nil_r. Qed.

Lemma extend_extend (t1 t2 : list Label) (w : World) :
  extend t2 (extend t1 w) = extend (t1 ++ t2) w.
Proof. unfold extend. simpl. by rewrite app_assoc. Qed.

Lemma trace_extend (t : list Label) (w : World) :
  trace (extend t w) = trace w ++ t.
Proof. reflexivity. Qed.

Lemma clock_extend (t : list Label) (w : World) : clock (extend t w) = clock w.
Proof. reflexivity. Qed.

Lemma server_extend (t : list Label) (w : World) : server (extend t w) = server w.
Proof. reflexivity. Qed.

Lemma newman_lib_extend (t : list Label) (w : World) :
  newman_lib (extend t w) = newman_lib w.
Proof. reflexivity. Qed.

Lemma dirs_extend (t : list Label) (w : World) : dirs (extend t w) = dirs w.
Proof. reflexivity. Qed.

Lemma exec_log_lines (lines : list string) (w : World) :
  exec (log_lines lines) w = (extend (map LLog lines) w, tt).
Proof.
  revert w. induction lines as [| l r IH]; intros w; simpl.
  - by rewrite extend_nil.
  - rewrite IH. change (record (LLog l) w) with (extend [LLog l] w).
    by rewrite extend_extend.
Qed.

Lemma exec_trigger {X} (e : Event X) (w : World) :
  exec (trigger e) w = handle e w.
Proof. unfold trigger. simpl. by destruct (handle e w). Qed.

Lemma exec_date (w : World) :
  exec (trigger DateNow) w
  = (extend [LDate (clock w (trace w))] w, clock w (trace w)).
Proof. by rewrite exec_trigger. Qed.

Lemma exec_newman (o : gmap string JSValue) (w : World) :
  exec (trigger (NewmanRun o)) w
  = (extend [LNewman o (newman_lib w (trace w) o)] w, newman_lib w (trace w) o).
Proof. by rewrite exec_trigger. Qed.

Lemma exec_fetch (url : string) (init : Http.RequestInit) (w : World) :
  exec (trigger (Fetch url init)) w
  = (extend [LFetch url init (server w (trace w) url init)] w,
     server w (trace w) url init).
Proof. by rewrite exec_trigger. Qed.

Lemma exec_console_log (line : string) (w : World) :
  exec (trigger (ConsoleLog line)) w = (extend [LLog line] w, tt).
Proof. by rewrite exec_trigger. Qed.

Lemma exec_console_error (line : string) (err : option JSError) (w : World) :
  exec (trigger (ConsoleError line err)) w = (extend [LError line err] w, tt).
Proof. by rewrite exec_trigger. Qed.

Lemma newman_calls_app (t1 t2 : list Label) :
  newman_calls (t1 ++ t2) = newman_calls t1 ++ newman_calls t2.
Proof. apply omap_app. Qed.

Lemma fetches_app (t1 t2 : list Label) :
  fetches (t1 ++ t2) = fetches t1 ++ fetches t2.
Proof. apply omap_app. Qed.

Lemma newman_calls_logs (lines : list string) :
  newman_calls (map LLog lines) = [].
Proof. induction lines; [done | by simpl]. Qed.

End Execution.

Section RunnerExecution.
Import Js Node Runner.

Lemma exec_on_newman_done (p : Paths) (res : Newman.Result) (w : World) :
  exec (on_newman_done p res) w = (extend (done_trace p res) w, settle res).
Proof.
  destruct res as [err | summary];
    unfold on_newman_done, done_trace, settle, callback_error.
  - reflexivity.
  - destruct (failure_lines summary) as [lines [e |]]; cbn [fst snd].
    + rewrite exec_bind, exec_log_lines. by rewrite app_nil_r.
    + rewrite exec_bind, exec_log_lines. cbn [fst snd].
      rewrite exec_bind, exec_log_lines. cbn [fst snd].
      rewrite extend_extend, <- map_app, <- !app_assoc. reflexivity.
Qed.

Lemma newman_calls_done (p : Paths) (res : Newman.Result) :
  newman_calls (done_trace p res) = [].
Proof. destruct res; [done | apply newman_calls_logs]. Qed.

(** One call of [runGmailTests], after [pre] has been printed: the
    clock is read, the start banner printed, Newman called once with
    [runOptions], and its answer settles the promise. *)
Lemma exec_run (this : NewmanRunner) (pre : list string)
    (environment : option string) (options : option (gmap string JSValue))
    (w : World) :
  let iso := clock w (trace w ++ map LLog pre) in
  let p := paths this (default "Development" environment) (replace_colon_dot iso) in
  let o := runOptions p (default ∅ options) in
  let before := map LLog pre ++ LDate iso :: map LLog (start_lines this p) in
  let res := newman_lib w (trace w ++ before) o in
  exec (log_lines pre ;;; runGmailTests this environment options) w
  = (extend (before ++ LNewman o res :: done_trace p res) w, settle res).
Proof.
  intros iso p o before res.
  rewrite exec_bind, exec_log_lines. cbn [fst snd]. unfold runGmailTests.
  rewrite exec_bind, exec_date. cbn [fst snd].
  rewrite exec_bind, exec_log_lines. cbn [fst snd].
  rewrite exec_bind, exec_newman. cbn [fst snd].
  rewrite exec_on_newman_done, !extend_extend.
  rewrite !trace_extend, !clock_extend, !newman_lib_extend.
  subst res o before p iso. rewrite <- !app_assoc. reflexivity.
Qed.

Lemma exec_runGmailTests (this : NewmanRunner) (environment : option string)
    (options : option (gmap string JSValue)) (w : World) :
  let iso := clock w (trace w) in
  let p := paths this (default "Development" environment) (replace_colon_dot iso) in
  let o := runOptions p (default ∅ options) in
  let before := LDate iso :: map LLog (start_lines this p) in
  let res := newman_lib w (trace w ++ before) o in
  exec (runGmailTests this environment options) w
  = (extend (before ++ LNewman o res :: done_trace p res) w, settle res).
Proof.
  intros iso p o before res.
  change (runGmailTests this environment options)
    with (log_lines [] ;;; runGmailTests this environment options).
  rewrite exec_run. change (map LLog []) with (@nil Label).
  by rewrite app_nil_r.
Qed.

(** Every branch of the [switch] prints at most a title and then
    calls [runGmailTests] with the environment of the command line. *)
Lemma dispatch_shape (this : NewmanRunner) (args : list string) :
  exists pre options,
    dispatch this args
    = (log_lines pre ;;; runGmailTests this (Some (environment args)) options).
Proof.
  unfold dispatch.
  destruct (String.eqb _ "smoke"); [| destruct (String.eqb _ "performance")].
  - by exists ["🔥 Running Gmail API Smoke Tests..."], (Some smokeOptions).
  - eexists ["⚡ Running Gmail API Performance Tests..."], (Some _).
    reflexivity.
  - by exists [], None.
Qed.

Lemma exec_finish (outcome : Completion Newman.Summary) (w : World) :
  exists t,
    exec (finish outcome) w = (extend t w, if is_resolved outcome then 0 else 1)%Z
    /\ newman_calls t = [].
Proof.
  destruct outcome as [s | e | e]; unfold finish.
  - rewrite exec_bind, exec_console_log. by eexists.
  - rewrite exec_bind, exec_console_error. by eexists.
  - exists []. by rewrite extend_nil.
Qed.

Lemma newman_calls_run (pre start : list string) (iso : string)
    (o : gmap string JSValue) (res : Newman.Result) (p : Paths) :
  newman_calls (map LLog pre ++ (LDate iso :: map LLog start)
                ++ LNewman o res :: done_trace p res) = [(o, res)].
Proof.
  rewrite !newman_calls_app, newman_calls_logs. simpl.
  by rewrite newman_calls_logs, newman_calls_done.
Qed.

Lemma exit_code_settle (res : Newman.Result) :
  (if is_resolved (settle res) then 0 else 1)%Z = exit_code_of res.
Proof.
  destruct res as [e | s]; unfold settle, exit_code_of; [done |].
  by destruct (callback_error s).
Qed.

(** The [forEach] over the failures throws exactly when some failure has
    no source. *)
Lemma each_failure_completes (index : nat) (fs : list Newman.Failure) :
  (each_failure index fs).2 = None
  <-> Forall (fun f => Newman.source f <> None) fs.
Proof.
  revert index. induction fs as [| f fs IH]; intros index; simpl.
  - split; [constructor | done].
  - rewrite Forall_cons, <- (IH (S index)). unfold failure_entry.
    destruct (Newman.source f) as [src |]; simpl.
    + destruct (each_failure (S index) fs) as [more thrown]. simpl.
      split; [by intros -> | by intros [_ ->]].
    + split; [done | by intros [? _]].
Qed.

Lemma callback_completes (s : Newman.Summary) :
  callback_error s = None
  <-> Forall (fun f => Newman.source f <> None) (Newman.failures (Newman.run s)).
Proof.
  unfold callback_error, failure_lines.
  rewrite <- (each_failure_completes 0).
  destruct (Newman.failures (Newman.run s)) as [| f fs]; [done |].
  change (0 <? length (f :: fs))%nat with true. cbn iota.
  by destruct (each_failure 0 (f :: fs)).
Qed.

Lemma callback_throws (s : Newman.Summary) :
  callback_error s <> None
  <-> Exists (fun f => Newman.source f = None) (Newman.failures (Newman.run s)).
Proof.
  split.
  - intros Hthrown.
    assert (Forall (fun f => Newman.source f <> None) (Newman.failures (Newman.run s))
            \/ Exists (fun f => Newman.source f = None)
                      (Newman.failures (Newman.run s))) as [Hall | Hsome]; [| | done].
    { induction (Newman.failures (Newman.run s)) as [| f fs [IH | IH]].
      - left. constructor.
      - destruct (Newman.source f) eqn:E.
        + left. constructor; [by rewrite E | done].
        + right. by constructor.
      - right. by constructor 2. }
    by apply callback_completes in Hall.
  - intros Hsome Hnone. apply callback_completes in Hnone.
    apply Exists_exists in Hsome as (f & Hin & Hf).
    rewrite Forall_forall in Hnone. by apply (Hnone f Hin).
Qed.

(** One run from the command line: Newman is called exactly once; its
    answer [res] settles the promise and fixes the exit code. *)
Lemma exec_main (this : NewmanRunner) (args : list string) (w : World) :
  exists o res,
    newman_calls (trace (exec (main this args) w).1)
    = newman_calls (trace w) ++ [(o, res)]
    /\ newman_calls (trace (exec (dispatch this args) w).1)
       = newman_calls (trace w) ++ [(o, res)]
    /\ (exec (dispatch this args) w).2 = settle res
    /\ (exec (main this args) w).2 = exit_code_of res.
Proof.
  unfold main. rewrite exec_bind.
  destruct (dispatch_shape this args) as (pre & options & ->).
  rewrite exec_run. cbn [fst snd].
  match goal with |- context [LNewman ?o ?r] => exists o, r end.
  match goal with
  | |- context [exec (finish ?c) ?w'] =>
      destruct (exec_finish c w') as (t & -> & Ht)
  end.
  cbn [fst snd]. rewrite !trace_extend, <- !app_assoc.
  rewrite !(newman_calls_app (trace w)), !newman_calls_run.
  repeat split; [| apply exit_code_settle].
  f_equal. rewrite !app_assoc, (newman_calls_app _ t), Ht, app_nil_r.
  rewrite <- !app_assoc. apply newman_calls_run.
Qed.

End RunnerExecution.

(** ** The exit code and the decisions of a run *)

Section ExitCode.
Import Js Node Runner.

(** C1, as the code has it: a run from the command line calls Newman
    once.  The process exits with 0 exactly when Newman reported no
    error and every failure of its summary has a source, so that the
    callback prints its report to the end and resolves the promise,
    whatever failures the summary records.  It exits with 1 exactly when
    Newman reported an error, which rejects the promise, or some failure
    has no source, where reading [failure.source.name] throws in the
    callback and the exception is uncaught. *)
Theorem C1_exit_code_follows_newman_error
    (this : NewmanRunner) (args : list string) (w : World) :
  exists o res,
    newman_calls (trace (exec (main this args) w).1)
    = newman_calls (trace w) ++ [(o, res)]
    /\ ((exec (main this args) w).2 = 0%Z
        <-> exists s, res = Newman.Ok s
              /\ Forall (fun f => Newman.source f <> None)
                        (Newman.failures (Newman.run s)))
    /\ ((exec (main this args) w).2 = 1%Z
        <-> (exists e, res = Newman.Err e)
            \/ exists s, res = Newman.Ok s
                 /\ Exists (fun f => Newman.source f = None)
                           (Newman.failures (Newman.run s)))
    /\ (exec (dispatch this args) w).2
       = match res with
         | Newman.Err e => Rejected e
         | Newman.Ok s =>
             match callback_error s with
             | Some e => Uncaught e
             | None => Resolved s
             end
         end.
Proof.
  destruct (exec_main this args w) as (o & res & Hcalls & _ & Hsettle & Hcode).
  exists o, res. split; [done |]. rewrite Hcode.
  split; [| split; [| exact Hsettle]]; destruct res as [e | s]; simpl.
  - split; [done | by intros (? & ? & _)].
  - split.
    + destruct (callback_error s) eqn:E; [done |]. intros _.
      exists s. split; [done |]. by apply callback_completes.
    + intros (s' & [= <-] & Hall). apply callback_completes in Hall.
      by rewrite Hall.
  - split; [intros _; left; by exists e | done].
  - split.
    + destruct (callback_error s) eqn:E; [| done]. intros _. right.
      exists s. split; [done |]. apply callback_throws. by rewrite E.
    + intros [[e' ?] | (s' & [= <-] & Hsome)]; [done |].
      apply callback_throws in Hsome. by destruct (callback_error s).
Qed.

(** C1 fails as stated: a full run whose summary records a failed
    assertion resolves and exits with 0 although its state is [Failed],
    and so does a smoke run that the bail policy aborted. *)
Lemma C1_failed_run_exits_zero :
  let w := Sample.world "2026-11-03T10:20:30.123Z" 200 (Some Sample.token)
                         (Newman.Ok Sample.failing) in
  (exec (script "/repo/scripts"
           ["node"; "/repo/scripts/newman_runner.js"; "full"; "Development"]) w).2
    = 0%Z
  /\ (exec (main Sample.runner ["full"; "Development"]) w).2 = 0%Z
  /\ (exec (dispatch Sample.runner ["full"; "Development"]) w).2
     = Resolved Sample.failing
  /\ Spec.terminal_state false Sample.failing = Spec.Failed
  /\ (exec (main Sample.runner ["smoke"]) w).2 = 0%Z
  /\ Spec.terminal_state true Sample.failing = Spec.Aborted.
Proof. vm_compute. repeat split. Qed.

(** A run whose summary has a failure without source: the callback
    prints the first line of the entry, throws, and the process ends
    with code 1 although Newman reported no error; neither the report
    paths nor the closing line of [main] are printed. *)
Example unsourced_failure_exits_one :
  let w := Sample.world "2026-11-03T10:20:30.123Z" 200 (Some Sample.token)
                         (Newman.Ok Sample.unsourced) in
  let after := exec (main Sample.runner ["full"; "Development"]) w in
  after.2 = 1%Z
  /\ (exec (dispatch Sample.runner ["full"; "Development"]) w).2
     = Uncaught (mkError "TypeError"
                         "Cannot read properties of undefined (reading 'name')")
  /\ last (console (trace after.1))
     = Some "1. Error: getaddrinfo ENOTFOUND gmail.googleapis.com".
Proof. vm_compute. repeat split. Qed.

(** C7: two runs with the same command line, in worlds that may differ
    in everything (clock, history, response times), whose Newman
    answers carry the same verdicts, exit with the same code, settle
    their promise the same way and print the same counter and failure
    lines. *)
Theorem C7_same_verdicts_same_decision
    (this : NewmanRunner) (args : list string) (w1 w2 : World)
    (o1 o2 : gmap string JSValue) (r1 r2 : Newman.Result) :
  newman_calls (trace (exec (main this args) w1).1)
    = newman_calls (trace w1) ++ [(o1, r1)] ->
  newman_calls (trace (exec (main this args) w2).1)
    = newman_calls (trace w2) ++ [(o2, r2)] ->
  Spec.same_verdicts r1 r2 ->
  (exec (main this args) w1).2 = (exec (main this args) w2).2
  /\ Spec.same_decision (exec (dispatch this args) w1).2
                        (exec (dispatch this args) w2).2
  /\ is_resolved (exec (dispatch this args) w1).2
     = is_resolved (exec (dispatch this args) w2).2
  /\ forall s1 s2,
       (exec (dispatch this args) w1).2 = Resolved s1 ->
       (exec (dispatch this args) w2).2 = Resolved s2 ->
       stats_lines s1 = stats_lines s2 /\ failure_lines s1 = failure_lines s2.
Proof.
  intros H1 H2 Hsame.
  destruct (exec_main this args w1) as (o1' & r1' & E1 & _ & S1 & C1).
  destruct (exec_main this args w2) as (o2' & r2' & E2 & _ & S2 & C2).
  rewrite E1 in H1. rewrite E2 in H2.
  apply app_inv_head in H1. apply app_inv_head in H2.
  injection H1 as -> ->. injection H2 as -> ->.
  rewrite S1, S2, C1, C2.
  destruct r1 as [e1 | s1], r2 as [e2 | s2]; simpl in Hsame; try done.
  pose proof Hsame as Hverdicts.
  unfold Spec.verdicts in Hsame. injection Hsame as Hst Hfs.
  assert (failure_lines s1 = failure_lines s2) as Hlines.
  { unfold failure_lines. by rewrite Hfs. }
  unfold settle, exit_code_of, callback_error. rewrite Hlines.
  destruct (failure_lines s2).2 as [e |]; simpl.
  - repeat split; try done.
  - split; [done |]. split; [done |]. split; [done |].
    intros s1' s2' [= <-] [= <-].
    split; [| done]. unfold stats_lines. by rewrite Hst.
Qed.

Lemma C7_witness :
  let w1 := Sample.world "2026-11-03T10:20:30.123Z" 200 (Some Sample.token)
                          (Newman.Ok (Sample.passing 120)) in
  let w2 := Sample.world "2026-11-04T08:00:00.000Z" 200 (Some Sample.token)
                          (Newman.Ok (Sample.passing 95)) in
  (exec (main Sample.runner ["full"]) w1).2
  = (exec (main Sample.runner ["full"]) w2).2
  /\ Spec.same_decision (exec (dispatch Sample.runner ["full"]) w1).2
                        (exec (dispatch Sample.runner ["full"]) w2).2.
Proof.
  intros w1 w2.
  destruct (C7_same_verdicts_same_decision Sample.runner ["full"] w1 w2
              (Runner.runOptions
                 (Runner.paths Sample.runner "Development"
                    "2026-11-03T10-20-30-123Z") ∅)
              (Runner.runOptions
                 (Runner.paths Sample.runner "Development"
                    "2026-11-04T08-00-00-000Z") ∅)
              (Newman.Ok (Sample.passing 120))
              (Newman.Ok (Sample.passing 95)))
    as (Hcode & Hdec & _).
  - vm_compute. reflexivity.
  - vm_compute. reflexivity.
  - vm_compute. reflexivity.
  - split; [exact Hcode | exact Hdec].
Defined.

End ExitCode.

(** ** Folder selection *)

Section Selection.
Import Js Spec.

Lemma selected_sublist (c : list Folder) (filter : option (list string)) :
  selected c filter `sublist_of` selected c None.
Proof.
  induction c as [| f rest IH]; simpl; [constructor |].
  apply sublist_app; [| exact IH].
  destruct (in_filter filter f); [done | apply sublist_nil_l].
Qed.

Lemma elem_of_selected (c : list Folder) (filter : option (list string))
    (name request : string) :
  (name, request) ∈ selected c filter
  <-> exists f, f ∈ c /\ folder_name f = name /\ request ∈ folder_requests f
                /\ in_filter filter f = true.
Proof.
  induction c as [| f rest IH]; simpl.
  - split; [by intros ?%elem_of_nil | by intros (? & ?%elem_of_nil & _)].
  - rewrite elem_of_app, IH. split.
    + intros [Hin | (g & Hg & ?)].
      * destruct (in_filter filter f) eqn:Hf; [| by apply elem_of_nil in Hin].
        apply list_elem_of_fmap in Hin as (r & [= -> ->] & Hr).
        exists f. split; [left |]; done.
      * exists g. split; [by right | done].
    + intros (g & Hg & Hname & Hreq & Hfilter).
      apply elem_of_cons in Hg as [-> | Hg].
      * left. rewrite Hfilter. apply list_elem_of_fmap. exists request.
        by rewrite Hname.
      * right. by exists g.
Qed.

(** With a filter, exactly the requests of the named folders remain. *)
Lemma selected_filter (c : list Folder) (names : list string)
    (name request : string) :
  (name, request) ∈ selected c (Some names)
  <-> (name, request) ∈ selected c None /\ name ∈ names.
Proof.
  rewrite !elem_of_selected. split.
  - intros (f & Hf & Hname & Hreq & Hin). simpl in Hin.
    apply bool_decide_eq_true in Hin. split; [| by rewrite <- Hname].
    by exists f.
  - intros [(f & Hf & Hname & Hreq & _) Hin]. exists f.
    repeat split; try done. simpl. apply bool_decide_eq_true.
    by rewrite Hname.
Qed.

End Selection.

Section Smoke.
Import Js Node Runner.

Lemma smoke_folder (p : Paths) :
  runOptions p smokeOptions !! "folder"
  = Some (JArr [JStr "Authentication"; JStr "Profile & User Info"]).
Proof. unfold runOptions. by apply lookup_union_Some_l. Qed.

(** C3: the shell runner passes [smoke] on, the script then runs
    [runSmokeTests], and the one Newman call this makes carries as its
    folder filter exactly "Authentication" and "Profile & User Info";
    the selection under that filter keeps the requests of those two
    folders and no others, in collection order. *)
Theorem C3_smoke_runs_two_folders
    (this : NewmanRunner) (environment : string) (iterations : string)
    (rest : list string) (w : World) :
  Shell.run_tests "smoke" environment iterations
    = Some ["node"; "scripts/newman_runner.js"; "smoke"; environment]
  /\ dispatch this ("smoke" :: rest)
     = runSmokeTests this (Some (Runner.environment ("smoke" :: rest)))
  /\ exists o res,
       newman_calls (trace (exec (runSmokeTests this (Some environment)) w).1)
       = newman_calls (trace w) ++ [(o, res)]
       /\ o !! "folder"
          = Some (JArr [JStr "Authentication"; JStr "Profile & User Info"])
       /\ Spec.folderFilter o = Some ["Authentication"; "Profile & User Info"]
       /\ forall c : list Spec.Folder,
            Spec.selected c (Spec.folderFilter o) `sublist_of` Spec.selected c None
            /\ forall name request,
                 (name, request) ∈ Spec.selected c (Spec.folderFilter o)
                 <-> (name, request) ∈ Spec.selected c None
                     /\ (name = "Authentication" \/ name = "Profile & User Info").
Proof.
  split; [done |]. split; [done |].
  change (runSmokeTests this (Some environment))
    with (log_lines ["🔥 Running Gmail API Smoke Tests..."] ;;;
          runGmailTests this (Some environment) (Some smokeOptions)).
  rewrite exec_run. cbn [fst snd].
  match goal with |- context [LNewman ?o ?r] => exists o, r end.
  rewrite trace_extend, newman_calls_app, <- app_assoc, newman_calls_run.
  split; [done |]. split; [apply smoke_folder |].
  assert (Hfilter : forall p, Spec.folderFilter (runOptions p (default ∅ (Some smokeOptions)))
                  = Some ["Authentication"; "Profile & User Info"]).
  { intros p. unfold Spec.folderFilter. simpl default. by rewrite smoke_folder. }
  rewrite Hfilter. split; [done |]. intros c. split.
  - apply selected_sublist.
  - intros name request. rewrite selected_filter.
    rewrite !elem_of_cons, elem_of_nil. tauto.
Qed.

(** On a collection of five folders the smoke filter keeps the two
    authentication and profile requests, in order. *)
Example smoke_selection :
  Spec.selected Sample.collection
    (Spec.folderFilter (runOptions Sample.paths smokeOptions))
  = [ ("Authentication", "Get OAuth Token");
      ("Profile & User Info", "Get User Profile") ].
Proof. vm_compute. reflexivity. Qed.

End Smoke.

(** ** The command line *)

Ltac run_lookup :=
  unfold Runner.runOptions;
  first [ apply lookup_union_Some_l; reflexivity
        | rewrite lookup_union_r by reflexivity; reflexivity ].

Section CommandLine.
Import Js Node Runner.


Lemma parseInt_missing : parseInt None = JNaN.
Proof. reflexivity. Qed.


(** A Number value is an integer-valued double or an infinity. *)
Lemma number_cases (m : Z) :
  (exists k, number m = JNum k) \/ (exists b, number m = JInfinity b).
Proof.
  unfold number. destruct (Z.abs m <? 2 ^ 53)%Z; [left; by eexists |].
  cbv zeta. destruct (2 ^ 1024 <=? _)%Z; [right | left]; by eexists.
Qed.

Lemma parseInt_cases (a : option string) :
  parseInt a = JNaN
  \/ (exists k, parseInt a = JNum k) \/ (exists b, parseInt a = JInfinity b).
Proof.
  assert (forall s, parseInt_string s = JNaN
                    \/ (exists k, parseInt_string s = JNum k)
                    \/ (exists b, parseInt_string s = JInfinity b)) as Hs.
  { intros s. unfold parseInt_string.
    destruct (strip_sign (skip_whitespace s)) as [sign s1].
    destruct (strip_radix s1) as [radix s2].
    destruct (parse_digits radix s2 None) as [n |]; [| by left].
    right. apply number_cases. }
  destruct a as [s |]; apply Hs.
Qed.

(** [parseInt(args[2]) || 5] is a number other than zero. *)
Lemma parseInt_or_five (a : option string) :
  (exists n, n <> 0%Z /\ js_or (parseInt a) (JNum 5) = JNum n)
  \/ (exists b, js_or (parseInt a) (JNum 5) = JInfinity b).
Proof.
  destruct (parseInt_cases a) as [-> | [[k ->] | [b ->]]].
  - left. by exists 5%Z.
  - left. unfold js_or, truthy.
    destruct (Z.eqb_spec k 0); [by exists 5%Z | by exists k].
  - right. by exists b.
Qed.

Lemma parseInt_or_five_truthy (a : option string) :
  truthy (js_or (parseInt a) (JNum 5)) = true.
Proof.
  destruct (parseInt_or_five a) as [(n & Hn & ->) | (b & ->)]; [| done].
  simpl. by destruct (Z.eqb_spec n 0).
Qed.

Lemma performance_iterationCount (p : Paths) (v : JSValue) :
  truthy v = true ->
  runOptions p (performanceOptions v) !! "iterationCount" = Some v.
Proof.
  intros Hv. unfold runOptions. rewrite lookup_union_r by done.
  change (computed_options p (performanceOptions v) !! "iterationCount")
    with (Some (js_or v (JNum 1))).
  unfold js_or. by rewrite Hv.
Qed.

Lemma dispatch_cases (this : NewmanRunner) (args : list string) :
  (toLowerCase (command args) = "smoke"
   /\ dispatch this args
      = (log_lines ["🔥 Running Gmail API Smoke Tests..."] ;;;
         runGmailTests this (Some (environment args)) (Some smokeOptions)))
  \/ (toLowerCase (command args) = "performance"
      /\ dispatch this args
         = (log_lines ["⚡ Running Gmail API Performance Tests..."] ;;;
            runGmailTests this (Some (environment args))
              (Some (performanceOptions
                       (js_or (parseInt (args !! 2%nat)) (JNum 5))))))
  \/ (toLowerCase (command args) <> "smoke"
      /\ toLowerCase (command args) <> "performance"
      /\ dispatch this args
         = (log_lines [] ;;; runGmailTests this (Some (environment args)) None)).
Proof.
  unfold dispatch.
  destruct (String.eqb_spec (toLowerCase (command args)) "smoke") as [Hs | Hs].
  { left. by split. }
  destruct (String.eqb_spec (toLowerCase (command args)) "performance") as [Hp | Hp].
  - right. left. split; [done |].
    pose proof (parseInt_or_five_truthy (args !! 2%nat)) as Hv.
    set (v := js_or (parseInt (args !! 2%nat)) (JNum 5)) in *. clearbody v.
    unfold runPerformanceTests.
    destruct v; simpl in Hv; first [discriminate Hv | reflexivity].
  - right. right. by repeat split.
Qed.

Lemma exec_main_shape (this : NewmanRunner) (args : list string) (w : World)
    (pre : list string) (options : option (gmap string JSValue)) :
  dispatch this args
    = (log_lines pre ;;; runGmailTests this (Some (environment args)) options) ->
  exists timestamp res,
    newman_calls (trace (exec (main this args) w).1)
    = newman_calls (trace w)
      ++ [(runOptions (paths this (environment args) timestamp) (default ∅ options),
           res)].
Proof.
  intros Hshape. unfold main. rewrite exec_bind, Hshape, exec_run. cbn [fst snd].
  match goal with
  | |- context [LNewman (runOptions (paths _ _ ?ts) _) ?r] => exists ts, r
  end.
  match goal with
  | |- context [exec (finish ?c) ?w'] =>
      destruct (exec_finish c w') as (t & -> & Ht)
  end.
  cbn [fst]. rewrite !trace_extend, <- !app_assoc.
  rewrite (newman_calls_app (trace w)). f_equal.
  rewrite !app_assoc, (newman_calls_app _ t), Ht, app_nil_r.
  rewrite <- !app_assoc. apply newman_calls_run.
Qed.




End CommandLine.

(** ** The run options *)

Section RunOptions.
Import Js Node Runner.

Lemma truthy_nonzero (n : Z) : n <> 0%Z -> js_or (JNum n) = fun _ => JNum n.
Proof. intros Hn. unfold js_or, truthy. by destruct (Z.eqb_spec n 0). Qed.

Lemma computed_iterationCount (p : Paths) (options : gmap string JSValue) :
  computed_options p options !! "iterationCount"
  = Some (js_or (get options "iterations") (JNum 1)).
Proof. reflexivity. Qed.

Lemma computed_delayRequest (p : Paths) (options : gmap string JSValue) :
  computed_options p options !! "delayRequest"
  = Some (js_or (get options "delay") (JNum 1000)).
Proof. reflexivity. Qed.

Lemma computed_timeout (p : Paths) (options : gmap string JSValue) :
  computed_options p options !! "timeout"
  = Some (js_or (get options "timeout") (JNum 30000)).
Proof. reflexivity. Qed.

Lemma computed_bail (p : Paths) (options : gmap string JSValue) :
  computed_options p options !! "bail"
  = Some (js_or (get options "bail") (JBool false)).
Proof. reflexivity. Qed.

Lemma get_missing (options : gmap string JSValue) (k : string) :
  options !! k = None -> get options k = JUndefined.
Proof. unfold get. by intros ->. Qed.

Lemma get_present (options : gmap string JSValue) (k : string) (v : JSValue) :
  options !! k = Some v -> get options k = v.
Proof. unfold get. by intros ->. Qed.

(** The spread wins over the literal, and the literal shows through
    where the caller gave nothing. *)
Lemma runOptions_given (p : Paths) (options : gmap string JSValue)
    (k : string) (v : JSValue) :
  options !! k = Some v -> runOptions p options !! k = Some v.
Proof. intros H. unfold runOptions. by apply lookup_union_Some_l. Qed.

Lemma runOptions_not_given (p : Paths) (options : gmap string JSValue)
    (k : string) :
  options !! k = None ->
  runOptions p options !! k = computed_options p options !! k.
Proof. intros H. unfold runOptions. by apply lookup_union_r. Qed.

(** C2, as the code has it by design: for an options object that does
    not itself carry Newman's [iterationCount] or [delayRequest], the
    iteration count is a supplied positive [iterations] and 1 when none
    is supplied; the delay is a supplied positive [delay] and 1000 when
    none is supplied; the timeout is a supplied positive [timeout] and
    30000 when none is supplied; bail is a supplied boolean and [false]
    when none is supplied. *)
Theorem C2_effective_run_configuration
    (p : Paths) (options : gmap string JSValue) :
  options !! "iterationCount" = None ->
  options !! "delayRequest" = None ->
  (forall n, (0 < n)%Z -> options !! "iterations" = Some (JNum n) ->
             runOptions p options !! "iterationCount" = Some (JNum n))
  /\ (options !! "iterations" = None ->
      runOptions p options !! "iterationCount" = Some (JNum 1))
  /\ (forall d, (0 < d)%Z -> options !! "delay" = Some (JNum d) ->
                runOptions p options !! "delayRequest" = Some (JNum d))
  /\ (options !! "delay" = None ->
      runOptions p options !! "delayRequest" = Some (JNum 1000))
  /\ (forall t, (0 < t)%Z -> options !! "timeout" = Some (JNum t) ->
                runOptions p options !! "timeout" = Some (JNum t))
  /\ (options !! "timeout" = None ->
      runOptions p options !! "timeout" = Some (JNum 30000))
  /\ (forall b, options !! "bail" = Some (JBool b) ->
                runOptions p options !! "bail" = Some (JBool b))
  /\ (options !! "bail" = None ->
      runOptions p options !! "bail" = Some (JBool false)).
Proof.
  intros Hcount Hdelay. repeat split.
  - intros n Hn Hit.
    rewrite runOptions_not_given, computed_iterationCount by done.
    rewrite (get_present _ _ _ Hit), truthy_nonzero; [done | lia].
  - intros Hit.
    by rewrite runOptions_not_given, computed_iterationCount, get_missing.
  - intros d Hd Hdl.
    rewrite runOptions_not_given, computed_delayRequest by done.
    rewrite (get_present _ _ _ Hdl), truthy_nonzero; [done | lia].
  - intros Hdl.
    by rewrite runOptions_not_given, computed_delayRequest, get_missing.
  - intros t _ Ht. by apply runOptions_given.
  - intros Ht. by rewrite runOptions_not_given, computed_timeout, get_missing.
  - intros b Hb. by apply runOptions_given.
  - intros Hb. by rewrite runOptions_not_given, computed_bail, get_missing.
Qed.

Lemma C2_witness :
  let options : gmap string JSValue :=
    list_to_map [("iterations", JNum 3); ("delay", JNum 250); ("bail", JBool true)] in
  runOptions Sample.paths options !! "iterationCount" = Some (JNum 3)
  /\ runOptions Sample.paths options !! "delayRequest" = Some (JNum 250)
  /\ runOptions Sample.paths options !! "timeout" = Some (JNum 30000)
  /\ runOptions Sample.paths options !! "bail" = Some (JBool true).
Proof.
  intros options.
  destruct (C2_effective_run_configuration Sample.paths options)
    as (Hit & _ & Hdl & _ & _ & Hto & Hb & _); [reflexivity | reflexivity |].
  split; [apply Hit; [lia | reflexivity] |].
  split; [apply Hdl; [lia | reflexivity] |].
  split; [apply Hto; reflexivity | apply Hb; reflexivity].
Defined.

(** C2 fails as stated: a supplied delay of 0 is replaced by 1000, and
    a supplied [iterations] is not the iteration count when the caller
    also passes [iterationCount]. *)
Lemma C2_zero_delay_and_raw_key :
  runOptions Sample.paths {[ "delay" := JNum 0 ]} !! "delayRequest"
    = Some (JNum 1000)
  /\ runOptions Sample.paths
       (list_to_map [("iterations", JNum 3); ("iterationCount", JNum 7)])
       !! "iterationCount"
     = Some (JNum 7).
Proof. vm_compute. split; reflexivity. Qed.

(** C10: every property of the caller's options is in the run options
    with the caller's value, also where the literal computed one;
    the literal shows through elsewhere; the mapped names
    [iterationCount] and [delayRequest] are always there, next to the
    raw [iterations] and [delay] the caller gave; and what the runner
    prints before it calls Newman does not depend on the options. *)
Theorem C10_options_spread_verbatim
    (p : Paths) (options : gmap string JSValue)
    (this : NewmanRunner) (environment : option string) (w : World) :
  (forall k v, options !! k = Some v -> runOptions p options !! k = Some v)
  /\ (forall k, options !! k = None ->
                runOptions p options !! k = computed_options p options !! k)
  /\ is_Some (runOptions p options !! "iterationCount")
  /\ is_Some (runOptions p options !! "delayRequest")
  /\ (options !! "iterationCount" = None ->
      runOptions p options !! "iterationCount"
      = Some (js_or (get options "iterations") (JNum 1)))
  /\ (options !! "delayRequest" = None ->
      runOptions p options !! "delayRequest"
      = Some (js_or (get options "delay") (JNum 1000)))
  /\ exists before q,
       console before = start_lines this q
       /\ forall given : gmap string JSValue,
            exists res,
              trace (exec (runGmailTests this environment (Some given)) w).1
              = trace w ++ before
                ++ LNewman (runOptions q given) res :: done_trace q res.
Proof.
  split; [intros k v; apply runOptions_given |].
  split; [intros k; apply runOptions_not_given |].
  split.
  { destruct (options !! "iterationCount") as [v |] eqn:E.
    - exists v. by apply runOptions_given.
    - eexists. by rewrite runOptions_not_given, computed_iterationCount. }
  split.
  { destruct (options !! "delayRequest") as [v |] eqn:E.
    - exists v. by apply runOptions_given.
    - eexists. by rewrite runOptions_not_given, computed_delayRequest. }
  split; [intros H; by rewrite runOptions_not_given, computed_iterationCount |].
  split; [intros H; by rewrite runOptions_not_given, computed_delayRequest |].
  set (iso := clock w (trace w)).
  set (q := paths this (default "Development" environment) (replace_colon_dot iso)).
  exists (LDate iso :: map LLog (start_lines this q)), q. split.
  - reflexivity.
  - intros given.
    rewrite exec_runGmailTests. cbn [fst]. rewrite trace_extend.
    eexists. reflexivity.
Qed.

Lemma C10_witness :
  let options : gmap string JSValue :=
    list_to_map [("reporters", JArr [JStr "cli"]); ("timeout", JNum 5);
                 ("iterations", JNum 3); ("delay", JNum 250)] in
  runOptions Sample.paths options !! "reporters" = Some (JArr [JStr "cli"])
  /\ runOptions Sample.paths options !! "timeout" = Some (JNum 5)
  /\ runOptions Sample.paths options !! "iterations" = Some (JNum 3)
  /\ runOptions Sample.paths options !! "iterationCount" = Some (JNum 3)
  /\ runOptions Sample.paths options !! "delay" = Some (JNum 250)
  /\ runOptions Sample.paths options !! "delayRequest" = Some (JNum 250).
Proof.
  intros options.
  destruct (C10_options_spread_verbatim Sample.paths options Sample.runner None
              (Sample.world "2026-11-03T10:20:30.123Z" 200 None
                             (Newman.Ok (Sample.passing 120))))
    as (Hgiven & _ & _ & _ & Hcount & Hdelay & _).
  split; [apply Hgiven; reflexivity |].
  split; [apply Hgiven; reflexivity |].
  split; [apply Hgiven; reflexivity |].
  split; [apply Hcount; reflexivity |].
  split; [apply Hgiven; reflexivity |].
  apply Hdelay; reflexivity.
Defined.

End RunOptions.

(** ** The OAuth helper *)

Section Tokens.
Import Js Http Node OAuth.

Lemma exec_await {A B} (p : Prog (Completion A))
    (f : A -> Prog (Completion B)) (w : World) :
  exec (await p f) w
  = match (exec p w).2 with
    | Resolved a => exec (f a) (exec p w).1
    | Rejected e => ((exec p w).1, Rejected e)
    | Uncaught e => ((exec p w).1, Uncaught e)
    end.
Proof. unfold await. rewrite exec_bind. by destruct (exec p w).2. Qed.

Lemma exec_refreshAccessToken (h : GmailOAuthHelper) (refreshToken : string)
    (w : World) :
  let init := refresh_request h refreshToken in
  let r := server w (trace w) (tokenUrl h) init in
  exec (refreshAccessToken h refreshToken) w
  = (extend [LFetch (tokenUrl h) init r] w,
     token_response "Token refresh failed: " r).
Proof.
  intros init r. unfold refreshAccessToken. by rewrite exec_bind, exec_fetch.
Qed.

Lemma exec_exchangeCodeForTokens (h : GmailOAuthHelper)
    (authorizationCode : string) (w : World) :
  let init := exchange_request h authorizationCode in
  let r := server w (trace w) (tokenUrl h) init in
  exec (exchangeCodeForTokens h authorizationCode) w
  = (extend [LFetch (tokenUrl h) init r] w,
     token_response "Token exchange failed: " r).
Proof.
  intros init r. unfold exchangeCodeForTokens.
  by rewrite exec_bind, exec_fetch.
Qed.

Lemma token_response_cases (failure : string) (r : Response) :
  (ok r = false ->
   token_response failure r = Rejected (mkError "Error" (failure +:+ statusText r)))
  /\ (ok r = true -> forall v, json_body r = Some v ->
      token_response failure r = Resolved v)
  /\ (ok r = true -> json_body r = None ->
      exists e, token_response failure r = Rejected e
                /\ err_name e = "SyntaxError").
Proof.
  unfold token_response, json. repeat split.
  - by intros ->.
  - by intros -> v ->.
  - intros -> ->. by eexists.
Qed.

(** C4, as the code has it: a token request is rejected, with an
    [Error] whose message names the status text, when the endpoint
    answers with a non-success status; on a success status the parsed
    payload is returned whatever its fields, and the call is rejected
    only when the body is not JSON. *)
Theorem C4_token_request_outcome
    (h : GmailOAuthHelper) (refreshToken authorizationCode : string) (w : World) :
  let r := server w (trace w) (tokenUrl h) (refresh_request h refreshToken) in
  let x := server w (trace w) (tokenUrl h) (exchange_request h authorizationCode) in
  let refreshed := (exec (refreshAccessToken h refreshToken) w).2 in
  let exchanged := (exec (exchangeCodeForTokens h authorizationCode) w).2 in
  (ok r = false ->
   refreshed = Rejected (mkError "Error" ("Token refresh failed: " +:+ statusText r)))
  /\ (ok r = true -> forall v, json_body r = Some v -> refreshed = Resolved v)
  /\ (ok r = true -> json_body r = None ->
      exists e, refreshed = Rejected e /\ err_name e = "SyntaxError")
  /\ (ok x = false ->
      exchanged
      = Rejected (mkError "Error" ("Token exchange failed: " +:+ statusText x)))
  /\ (ok x = true -> forall v, json_body x = Some v -> exchanged = Resolved v)
  /\ (ok x = true -> json_body x = None ->
      exists e, exchanged = Rejected e /\ err_name e = "SyntaxError").
Proof.
  intros r x refreshed exchanged. subst refreshed exchanged.
  rewrite exec_refreshAccessToken, exec_exchangeCodeForTokens. cbn [snd].
  destruct (token_response_cases "Token refresh failed: " r) as (? & ? & ?).
  destruct (token_response_cases "Token exchange failed: " x) as (? & ? & ?).
  by repeat split.
Qed.

Lemma C4_witness :
  let w := Sample.world "2026-11-03T10:20:30.123Z" 401 None
                         (Newman.Ok (Sample.passing 120)) in
  (exec (refreshAccessToken Sample.helper "1//04-abc") w).2
  = Rejected (mkError "Error" "Token refresh failed: Unauthorized")
  /\ (exec (exchangeCodeForTokens Sample.helper "4/0Adeu5B") w).2
     = Rejected (mkError "Error" "Token exchange failed: Unauthorized").
Proof.
  intros w.
  destruct (C4_token_request_outcome Sample.helper "1//04-abc" "4/0Adeu5B" w)
    as (Hr & _ & _ & Hx & _ & _).
  split; [apply Hr; reflexivity | apply Hx; reflexivity].
Defined.

(** C4 fails as stated: a success status with a payload that has no
    [access_token] is returned to the caller, not rejected. *)
Lemma C4_malformed_payload_is_returned :
  let w := Sample.world "2026-11-03T10:20:30.123Z" 200 (Some Sample.malformed)
                         (Newman.Ok (Sample.passing 120)) in
  has_field "access_token" Sample.malformed = false
  /\ (exec (refreshAccessToken Sample.helper "1//04-abc") w).2
     = Resolved Sample.malformed
  /\ (exec (exchangeCodeForTokens Sample.helper "4/0Adeu5B") w).2
     = Resolved Sample.malformed.
Proof. vm_compute. repeat split. Qed.

(** C5, as the code has it: a refresh and a code exchange each make one
    POST to the token URL with the form content type; the body of a
    refresh has exactly [client_id], [client_secret], [refresh_token]
    and [grant_type=refresh_token]; the body of an exchange has
    [client_id], [client_secret], [code],
    [grant_type=authorization_code] and also [redirect_uri]; when the
    status is a success the parsed JSON body is what the caller gets. *)
Theorem C5_token_requests
    (h : GmailOAuthHelper) (refreshToken authorizationCode : string) (w : World) :
  let r := server w (trace w) (tokenUrl h) (refresh_request h refreshToken) in
  let x := server w (trace w) (tokenUrl h) (exchange_request h authorizationCode) in
  fetches (trace (exec (refreshAccessToken h refreshToken) w).1)
    = fetches (trace w) ++ [(tokenUrl h, refresh_request h refreshToken, r)]
  /\ fetches (trace (exec (exchangeCodeForTokens h authorizationCode) w).1)
     = fetches (trace w) ++ [(tokenUrl h, exchange_request h authorizationCode, x)]
  /\ method (refresh_request h refreshToken) = "POST"
  /\ method (exchange_request h authorizationCode) = "POST"
  /\ headers (refresh_request h refreshToken)
     = [("Content-Type", "application/x-www-form-urlencoded")]
  /\ headers (exchange_request h authorizationCode)
     = [("Content-Type", "application/x-www-form-urlencoded")]
  /\ body (refresh_request h refreshToken)
     = [ ("client_id", clientId h); ("client_secret", clientSecret h);
         ("refresh_token", refreshToken); ("grant_type", "refresh_token") ]
  /\ body (exchange_request h authorizationCode)
     = [ ("client_id", clientId h); ("client_secret", clientSecret h);
         ("code", authorizationCode); ("grant_type", "authorization_code");
         ("redirect_uri", redirectUri h) ]
  /\ (ok r = true -> forall v, json_body r = Some v ->
      (exec (refreshAccessToken h refreshToken) w).2 = Resolved v)
  /\ (ok x = true -> forall v, json_body x = Some v ->
      (exec (exchangeCodeForTokens h authorizationCode) w).2 = Resolved v).
Proof.
  intros r x.
  rewrite exec_refreshAccessToken, exec_exchangeCodeForTokens. cbn [fst snd].
  rewrite !trace_extend, !fetches_app.
  destruct (token_response_cases "Token refresh failed: " r) as (_ & ? & _).
  destruct (token_response_cases "Token exchange failed: " x) as (_ & ? & _).
  by repeat split.
Qed.

Lemma C5_witness :
  let w := Sample.world "2026-11-03T10:20:30.123Z" 200 (Some Sample.token)
                         (Newman.Ok (Sample.passing 120)) in
  (exec (refreshAccessToken Sample.helper "1//04-abc") w).2
    = Resolved Sample.token
  /\ (exec (exchangeCodeForTokens Sample.helper "4/0Adeu5B") w).2
     = Resolved Sample.token.
Proof.
  intros w.
  destruct (C5_token_requests Sample.helper "1//04-abc" "4/0Adeu5B" w)
    as (_ & _ & _ & _ & _ & _ & _ & _ & Hr & Hx).
  split; [apply Hr; reflexivity | apply Hx; reflexivity].
Defined.

(** C5 fails as stated: the body of the code exchange has a fifth
    field, [redirect_uri]. *)
Lemma C5_exchange_sends_redirect_uri :
  keys (body (exchange_request Sample.helper "4/0Adeu5B"))
    = ["client_id"; "client_secret"; "code"; "grant_type"; "redirect_uri"]
  /\ "redirect_uri" ∉ ["client_id"; "client_secret"; "grant_type"; "code"].
Proof.
  split; [reflexivity |]. rewrite !elem_of_cons, elem_of_nil.
  intros [? | [? | [? | [? | []]]]]; discriminate.
Qed.

(** C6, as the code has it: the helper keeps no token, so every refresh
    posts to the token endpoint whatever the history, and [n] refreshes
    that all succeed make exactly [n] such posts and return [n] tokens. *)
Theorem C6_every_refresh_posts
    (h : GmailOAuthHelper) (refreshToken : string) (n : nat) (w : World)
    (tokens : list JSValue) :
  (exec (refresh_times h refreshToken n) w).2 = Resolved tokens ->
  length (fetches (trace (exec (refresh_times h refreshToken n) w).1))
    = (length (fetches (trace w)) + n)%nat
  /\ length tokens = n
  /\ forall call, call ∈ fetches (trace (exec (refresh_times h refreshToken n) w).1) ->
                  call ∈ fetches (trace w)
                  \/ (call.1.1 = tokenUrl h
                      /\ call.1.2 = refresh_request h refreshToken).
Proof.
  revert w tokens. induction n as [| k IH]; intros w tokens.
  - simpl. intros [= <-]. rewrite Nat.add_0_r. repeat split. by left.
  - change (refresh_times h refreshToken (S k))
      with (await (refreshAccessToken h refreshToken) (fun token =>
            await (refresh_times h refreshToken k) (fun rest =>
            Ret (Resolved (token :: rest))))).
    rewrite exec_await, exec_refreshAccessToken. cbn [fst snd].
    destruct (token_response _ _) as [token | e | e]; [| done | done].
    rewrite exec_await.
    destruct (exec (refresh_times h refreshToken k) _) as [w' out] eqn:E.
    cbn [fst snd]. destruct out as [rest | e | e]; [| done | done].
    simpl. intros [= <-].
    match type of E with exec _ ?w0 = _ => specialize (IH w0 rest) end.
    rewrite E in IH. cbn [fst snd] in IH.
    destruct (IH eq_refl) as (Hlen & Hrest & Hcalls).
    rewrite trace_extend, fetches_app in Hlen, Hcalls.
    rewrite length_app in Hlen. simpl in Hlen.
    split; [lia |]. split; [simpl; lia |].
    intros call Hcall. destruct (Hcalls call Hcall) as [Hold | Hnew].
    + apply elem_of_app in Hold as [Hold | Hold]; [by left |].
      right. simpl in Hold. apply list_elem_of_singleton in Hold. by subst call.
    + by right.
Qed.

Lemma C6_witness :
  let w := Sample.world "2026-11-03T10:20:30.123Z" 200 (Some Sample.token)
                         (Newman.Ok (Sample.passing 120)) in
  length (fetches (trace (exec (refresh_times Sample.helper "1//04-abc" 2) w).1))
  = 2%nat.
Proof.
  intros w.
  destruct (C6_every_refresh_posts Sample.helper "1//04-abc" 2 w
              [Sample.token; Sample.token]) as (Hlen & _ & _).
  - reflexivity.
  - exact Hlen.
Defined.

(** C6 fails as stated: with a token valid for an hour in hand, a
    second refresh still posts to the token endpoint. *)
Lemma C6_second_refresh_posts_again :
  let w := Sample.world "2026-11-03T10:20:30.123Z" 200 (Some Sample.token)
                         (Newman.Ok (Sample.passing 120)) in
  (exec (refresh_times Sample.helper "1//04-abc" 2) w).2
    = Resolved [Sample.token; Sample.token]
  /\ map (fun call => call.1.1)
         (fetches (trace (exec (refresh_times Sample.helper "1//04-abc" 2) w).1))
     = [ "https://oauth2.googleapis.com/token";
         "https://oauth2.googleapis.com/token" ].
Proof. vm_compute. split; reflexivity. Qed.

(** C8: a code exchange and a refresh each leave exactly one event in
    the history, the request to the token endpoint; directories,
    console and the rest of the world are as before.  The token goes to
    the caller: when the endpoint answers with a success status and a
    JSON body, the operation resolves with that body, and whatever an
    operation resolves with is the parsed body of the answer. *)
Theorem C8_tokens_only_returned
    (h : GmailOAuthHelper) (refreshToken authorizationCode : string) (w : World) :
  let r := server w (trace w) (tokenUrl h) (refresh_request h refreshToken) in
  let x := server w (trace w) (tokenUrl h) (exchange_request h authorizationCode) in
  let after_refresh := exec (refreshAccessToken h refreshToken) w in
  let after_exchange := exec (exchangeCodeForTokens h authorizationCode) w in
  trace after_refresh.1
    = trace w ++ [LFetch (tokenUrl h) (refresh_request h refreshToken) r]
  /\ trace after_exchange.1
     = trace w ++ [LFetch (tokenUrl h) (exchange_request h authorizationCode) x]
  /\ dirs after_refresh.1 = dirs w /\ dirs after_exchange.1 = dirs w
  /\ console (trace after_refresh.1) = console (trace w)
  /\ console (trace after_exchange.1) = console (trace w)
  /\ after_refresh.1 = extend [LFetch (tokenUrl h) (refresh_request h refreshToken) r] w
  /\ after_exchange.1
     = extend [LFetch (tokenUrl h) (exchange_request h authorizationCode) x] w
  /\ (forall token, after_refresh.2 = Resolved token -> json_body r = Some token)
  /\ (forall token, after_exchange.2 = Resolved token -> json_body x = Some token)
  /\ (forall token, ok r = true -> json_body r = Some token ->
       after_refresh.2 = Resolved token)
  /\ (forall token, ok x = true -> json_body x = Some token ->
       after_exchange.2 = Resolved token).
Proof.
  intros r x after_refresh after_exchange. subst after_refresh after_exchange.
  rewrite exec_refreshAccessToken, exec_exchangeCodeForTokens. cbn [fst snd].
  rewrite !trace_extend, !dirs_extend. unfold console.
  rewrite !omap_app. simpl. rewrite !app_nil_r.
  destruct (token_response_cases "Token refresh failed: " r) as (_ & Hr & _).
  destruct (token_response_cases "Token exchange failed: " x) as (_ & Hx & _).
  split; [done |]. split; [done |]. split; [done |]. split; [done |].
  split; [done |]. split; [done |]. split; [done |]. split; [done |].
  split; [| split; [| split]].
  - clear Hr Hx. subst r x. unfold token_response, json. intros token.
    destruct (negb (ok _)); try done. by destruct (json_body _); intros [= ->].
  - clear Hr Hx. subst r x. unfold token_response, json. intros token.
    destruct (negb (ok _)); try done. by destruct (json_body _); intros [= ->].
  - intros token Hok Hbody. by apply Hr.
  - intros token Hok Hbody. by apply Hx.
Qed.

Lemma C8_witness :
  let w := Sample.world "2026-11-03T10:20:30.123Z" 200 (Some Sample.token)
                         (Newman.Ok (Sample.passing 120)) in
  json_body (server w (trace w) (tokenUrl Sample.helper)
               (refresh_request Sample.helper "1//04-abc"))
  = Some Sample.token
  /\ (exec (refreshAccessToken Sample.helper "1//04-abc") w).2
     = Resolved Sample.token
  /\ (exec (exchangeCodeForTokens Sample.helper "4/0Adeu5B") w).2
     = Resolved Sample.token.
Proof.
  intros w.
  destruct (C8_tokens_only_returned Sample.helper "1//04-abc" "4/0Adeu5B" w)
    as (_ & _ & _ & _ & _ & _ & _ & _ & Hr & _ & Hrefresh & Hexchange).
  split; [apply Hr; reflexivity |].
  split; [apply Hrefresh; reflexivity | apply Hexchange; reflexivity].
Defined.

End Tokens.

(** ** Form encoding and the authorization URL *)

Section FormEncoding.
Import Js Form.

Lemma append_nil (s : string) : EmptyString +:+ s = s.
Proof. reflexivity. Qed.

Lemma append_cons (a : ascii) (x y : string) :
  String a x +:+ y = String a (x +:+ y).
Proof. reflexivity. Qed.

Lemma append_assoc (a b c : string) : (a +:+ b) +:+ c = a +:+ (b +:+ c).
Proof.
  induction a as [| x a IH]; [done |]. rewrite !append_cons. by f_equal.
Qed.

Lemma occurs_app (c : ascii) (a b : string) :
  occurs c (a +:+ b) = (occurs c a || occurs c b)%bool.
Proof.
  induction a as [| x a IH]; [done |]. rewrite append_cons. simpl.
  rewrite IH. by destruct (Ascii.eqb x c).
Qed.

Lemma all_chars_app (P : ascii -> bool) (a b : string) :
  all_chars P (a +:+ b) = (all_chars P a && all_chars P b)%bool.
Proof.
  induction a as [| x a IH]; [done |]. rewrite append_cons. simpl.
  rewrite IH. by destruct (P x).
Qed.

Lemma decode_encode_byte (a : ascii) (r : string) :
  decode (encode_byte a +:+ r) = String a (decode r).
Proof. destruct a as [[] [] [] [] [] [] [] []]; reflexivity. Qed.

Lemma decode_encode (s : string) : decode (encode s) = s.
Proof.
  induction s as [| a s IH]; simpl; [done |].
  by rewrite decode_encode_byte, IH.
Qed.

Lemma encode_byte_no_separator (a : ascii) :
  occurs "&" (encode_byte a) = false /\ occurs "=" (encode_byte a) = false.
Proof. destruct a as [[] [] [] [] [] [] [] []]; split; reflexivity. Qed.

Lemma encode_no_separator (s : string) :
  occurs "&" (encode s) = false /\ occurs "=" (encode s) = false.
Proof.
  induction s as [| a s [IH1 IH2]]; simpl; [done |].
  rewrite !occurs_app, IH1, IH2.
  by destruct (encode_byte_no_separator a) as [-> ->].
Qed.

Lemma encode_byte_url_chars (a : ascii) :
  all_chars is_url_char (encode_byte a) = true.
Proof. destruct a as [[] [] [] [] [] [] [] []]; reflexivity. Qed.

Lemma encode_url_chars (s : string) : all_chars is_url_char (encode s) = true.
Proof.
  induction s as [| a s IH]; simpl; [done |].
  by rewrite all_chars_app, encode_byte_url_chars, IH.
Qed.

Lemma split_on_whole (sep : ascii) (x : string) :
  occurs sep x = false -> split_on sep x = [x].
Proof.
  induction x as [| a x IH]; simpl; [done |].
  destruct (Ascii.eqb a sep); [done |]. simpl. intros H. by rewrite IH.
Qed.

Lemma split_on_first (sep : ascii) (x y : string) :
  occurs sep x = false ->
  split_on sep (x +:+ String sep y) = x :: split_on sep y.
Proof.
  induction x as [| a x IH].
  - rewrite append_nil. simpl. by rewrite Ascii.eqb_refl.
  - rewrite append_cons. simpl.
    destruct (Ascii.eqb a sep); [done |]. simpl. intros H. by rewrite IH.
Qed.

Lemma split_on_join (sep : ascii) (pieces : list string) :
  pieces <> [] ->
  Forall (fun x => occurs sep x = false) pieces ->
  split_on sep (join_with (String sep "") pieces) = pieces.
Proof.
  induction pieces as [| x rest IH]; [done |]. intros _ Hall.
  apply Forall_cons in Hall as [Hx Hrest].
  destruct rest as [| y rest]; simpl.
  - by apply split_on_whole.
  - rewrite append_cons, append_nil.
    rewrite split_on_first by done. f_equal. by apply IH.
Qed.

Lemma break_eq_pair (x y : string) :
  occurs "=" x = false -> break_eq (x +:+ String "=" y) = (x, y).
Proof.
  induction x as [| a x IH]; [done |]. rewrite append_cons. simpl.
  destruct (Ascii.eqb a "="); [done |]. simpl. intros H. by rewrite IH.
Qed.

Lemma pair_string_no_amp (entry : string * string) :
  occurs "&" (pair_string entry) = false.
Proof.
  unfold pair_string. rewrite !occurs_app.
  destruct (encode_no_separator entry.1) as [-> _].
  by destruct (encode_no_separator entry.2) as [-> _].
Qed.

Lemma pair_string_not_empty (entry : string * string) :
  pair_string entry <> EmptyString.
Proof.
  unfold pair_string. intros H.
  assert (occurs "=" (encode entry.1 +:+ "=" +:+ encode entry.2) = true) as Ho.
  { rewrite !occurs_app. simpl. by rewrite orb_true_r. }
  by rewrite H in Ho.
Qed.

Lemma parse_pieces (entries : list (string * string)) :
  map (fun seq => (decode (break_eq seq).1, decode (break_eq seq).2))
      (filter (fun seq => seq <> EmptyString) (map pair_string entries))
  = entries.
Proof.
  induction entries as [| [k v] rest IH]; [done |].
  rewrite map_cons, filter_cons_True by apply pair_string_not_empty.
  rewrite map_cons, IH. f_equal. unfold pair_string. simpl fst. simpl snd.
  change (encode k +:+ "=" +:+ encode v) with (encode k +:+ String "=" (encode v)).
  rewrite break_eq_pair by apply encode_no_separator.
  simpl. by rewrite !decode_encode.
Qed.

Lemma parse_serialize (entries : list (string * string)) :
  parse (serialize entries) = entries.
Proof.
  unfold parse, serialize. destruct entries as [| e rest]; [done |].
  change "&" with (String "&"%char "") at 1.
  rewrite split_on_join; [apply parse_pieces | done |].
  apply Forall_forall. intros x Hx.
  apply list_elem_of_fmap in Hx as (entry & -> & _).
  apply pair_string_no_amp.
Qed.

Lemma pair_string_url_chars (entry : string * string) :
  all_chars is_url_char (pair_string entry) = true.
Proof.
  unfold pair_string. by rewrite !all_chars_app, !encode_url_chars.
Qed.

Lemma serialize_url_chars (entries : list (string * string)) :
  all_chars is_url_char (serialize entries) = true.
Proof.
  unfold serialize. induction entries as [| e rest IH]; [done |].
  destruct rest as [| e' rest]; [apply pair_string_url_chars |].
  change (join_with "&" (map pair_string (e :: e' :: rest)))
    with (pair_string e +:+ "&" +:+ join_with "&" (map pair_string (e' :: rest))).
  by rewrite !all_chars_app, pair_string_url_chars, IH.
Qed.

(** X1: a list of name and value pairs, serialized as the body of a
    token request or the query of the authorization URL is, reads back
    as the same list, whatever bytes the names and values hold; a value
    cannot add or change a field. *)
Theorem X1_form_encoding_round_trip
    (entries : list (string * string)) (h : OAuth.GmailOAuthHelper)
    (refreshToken authorizationCode : string) :
  parse (serialize entries) = entries
  /\ parse (serialize (Http.body (OAuth.refresh_request h refreshToken)))
     = [ ("client_id", OAuth.clientId h); ("client_secret", OAuth.clientSecret h);
         ("refresh_token", refreshToken); ("grant_type", "refresh_token") ]
  /\ parse (serialize (Http.body (OAuth.exchange_request h authorizationCode)))
     = [ ("client_id", OAuth.clientId h); ("client_secret", OAuth.clientSecret h);
         ("code", authorizationCode); ("grant_type", "authorization_code");
         ("redirect_uri", OAuth.redirectUri h) ].
Proof. by rewrite !parse_serialize. Qed.

End FormEncoding.

Section AuthorizationUrl.
Import Js Form OAuth AuthUrl.

Lemma auth_url_params (clientId clientSecret : string) (redirectUri : option string) :
  searchParams (auth_url (new clientId clientSecret redirectUri))
  = [ ("client_id", clientId);
      ("redirect_uri", default "urn:ietf:wg:oauth:2.0:oob" redirectUri);
      ("scope",
        "https://www.googleapis.com/auth/gmail.readonly https://www.googleapis.com/auth/gmail.send https://www.googleapis.com/auth/gmail.labels https://www.googleapis.com/auth/gmail.modify");
      ("response_type", "code");
      ("access_type", "offline");
      ("prompt", "consent") ].
Proof. reflexivity. Qed.

(** X2: for every client id, client secret and redirect URI, the
    authorization URL is the fixed endpoint followed by a query that reads
    back as exactly six parameters, in this order: the client id, the
    redirect URI (the out-of-band one when none was given), the four
    Gmail scopes separated by spaces, [response_type=code],
    [access_type=offline] and [prompt=consent]; the client secret is not
    among them. *)
Theorem X2_authorization_url_parameters
    (clientId clientSecret : string) (redirectUri : option string) :
  exists query,
    generateAuthUrl (new clientId clientSecret redirectUri)
    = "https://accounts.google.com/o/oauth2/auth?" +:+ query
    /\ parse query
       = [ ("client_id", clientId);
           ("redirect_uri", default "urn:ietf:wg:oauth:2.0:oob" redirectUri);
           ("scope",
             "https://www.googleapis.com/auth/gmail.readonly https://www.googleapis.com/auth/gmail.send https://www.googleapis.com/auth/gmail.labels https://www.googleapis.com/auth/gmail.modify");
           ("response_type", "code");
           ("access_type", "offline");
           ("prompt", "consent") ]
    /\ "client_secret" ∉ map fst (parse query).
Proof.
  eexists. split; [| split].
  - unfold generateAuthUrl, toString. rewrite auth_url_params. reflexivity.
  - apply parse_serialize.
  - rewrite parse_serialize. simpl. rewrite !elem_of_cons, elem_of_nil.
    intros [? | [? | [? | [? | [? | [? | []]]]]]]; discriminate.
Qed.

(** X3: whatever bytes the client id and the redirect URI hold, the
    authorization URL is made of ASCII letters, digits and the characters
    * - . _ % + = & : / ? only: no space, quote, control or non-ASCII byte
    reaches it unescaped. *)
Theorem X3_authorization_url_characters
    (clientId clientSecret : string) (redirectUri : option string) :
  all_chars is_url_char (generateAuthUrl (new clientId clientSecret redirectUri))
  = true.
Proof.
  unfold generateAuthUrl, toString. rewrite auth_url_params.
  rewrite !all_chars_app, serialize_url_chars. reflexivity.
Qed.

End AuthorizationUrl.

(** ** The runner's constructor and its timestamp *)

Section Construction.
Import Js Node Runner.

Lemma exec_new (dirname : string) (w : World) :
  let reports := path_join [dirname; ".."; "reports"] in
  let this :=
    {| collectionsDir := path_join [dirname; ".."; "collections"];
       environmentsDir := path_join [dirname; ".."; "environments"];
       dataDir := path_join [dirname; ".."; "data"];
       reportsDir := reports |} in
  exec (new dirname) w
  = (if bool_decide (reports ∈ dirs w)
     then extend [LExists reports true] w
     else extend [LExists reports false; LMkdir reports] (make_dir reports w),
     this).
Proof.
  intros reports this. unfold new. rewrite exec_bind, exec_trigger.
  cbn [handle fst snd reportsDir]. fold reports.
  destruct (bool_decide (reports ∈ dirs w)); [reflexivity |].
  simpl. unfold extend, record, make_dir.
  cbn [clock server newman_lib dirs trace]. by rewrite <- app_assoc.
Qed.

(** X4: constructing the runner leaves the reports directory in
    existence and removes none; [mkdirSync] is called only when the
    directory was missing, and then for that directory alone. *)
Theorem X4_constructor_ensures_reports_dir (dirname : string) (w : World) :
  let this := (exec (new dirname) w).2 in
  let after := (exec (new dirname) w).1 in
  let present := bool_decide (reportsDir this ∈ dirs w) in
  reportsDir this = path_join [dirname; ".."; "reports"]
  /\ reportsDir this ∈ dirs after
  /\ dirs after = (if present then dirs w else {[ reportsDir this ]} ∪ dirs w)
  /\ dirs w ⊆ dirs after
  /\ trace after
     = trace w ++ LExists (reportsDir this) present
               :: (if present then [] else [LMkdir (reportsDir this)]).
Proof.
  intros this after present. subst this after present.
  rewrite exec_new. cbn [fst snd reportsDir].
  destruct (bool_decide (path_join [dirname; ".."; "reports"] ∈ dirs w)) eqn:E.
  - apply bool_decide_eq_true in E. by repeat split.
  - repeat split; cbn [dirs extend make_dir]; set_solver.
Qed.

Lemma replace_colon_dot_clean (c : ascii) (s : string) :
  c = ":"%char \/ c = "."%char -> Form.occurs c (replace_colon_dot s) = false.
Proof.
  intros Hc. induction s as [| a s IH]; simpl; [done |]. rewrite IH, orb_false_r.
  destruct (Ascii.eqb_spec a ":") as [-> | Hn1]; simpl.
  { by destruct Hc as [-> | ->]. }
  destruct (Ascii.eqb_spec a ".") as [-> | Hn2]; simpl.
  { by destruct Hc as [-> | ->]. }
  apply Ascii.eqb_neq. by destruct Hc as [-> | ->].
Qed.

(** X5: the timestamp put in the report file names has no colon and no
    dot, is as long as the ISO time it comes from, and keeps every other
    character; sanitizing it again changes nothing. *)
Theorem X5_timestamp_is_file_name_safe (iso : string) :
  Form.occurs ":" (replace_colon_dot iso) = false
  /\ Form.occurs "." (replace_colon_dot iso) = false
  /\ String.length (replace_colon_dot iso) = String.length iso
  /\ replace_colon_dot (replace_colon_dot iso) = replace_colon_dot iso
  /\ (Form.occurs ":" iso = false -> Form.occurs "." iso = false ->
      replace_colon_dot iso = iso).
Proof.
  split; [apply replace_colon_dot_clean; by left |].
  split; [apply replace_colon_dot_clean; by right |].
  split; [| split].
  - induction iso as [| a s IH]; simpl; [done | by rewrite IH].
  - induction iso as [| a s IH]; simpl; [done |]. rewrite IH. f_equal.
    destruct (Ascii.eqb a ":") eqn:E1, (Ascii.eqb a ".") eqn:E2; simpl;
      by rewrite ?E1, ?E2.
  - induction iso as [| a s IH]; simpl; [done |].
    destruct (Ascii.eqb a ":"), (Ascii.eqb a "."); simpl; try done.
    intros H1 H2. by rewrite IH.
Qed.

Lemma X5_witness :
  replace_colon_dot "20261103T102030Z" = "20261103T102030Z".
Proof.
  destruct (X5_timestamp_is_file_name_safe "20261103T102030Z")
    as (_ & _ & _ & _ & H).
  apply H; reflexivity.
Defined.

End Construction.

(** ** What a run prints *)

Section Report.
Import Js Node Runner.

Lemma console_app (t1 t2 : list Label) :
  console (t1 ++ t2) = console t1 ++ console t2.
Proof. apply omap_app. Qed.

Lemma console_logs (lines : list string) : console (map LLog lines) = lines.
Proof. induction lines as [| l r IH]; [done |]. simpl. by rewrite IH. Qed.

Lemma pretty_N_char_digit (d : N) :
  (d < 10)%N -> Js.digit_value 10 (pretty_N_char d) = Some (Z.of_N d).
Proof.
  intros Hd.
  assert (d = 0 \/ d = 1 \/ d = 2 \/ d = 3 \/ d = 4 \/ d = 5 \/ d = 6
          \/ d = 7 \/ d = 8 \/ d = 9)%N as H by lia.
  destruct H as [-> | [-> | [-> | [-> | [-> | [-> | [-> | [-> | [-> | ->]]]]]]]]];
    reflexivity.
Qed.

(** The first character of a positive number in decimal is a digit from
    1 to 9. *)
Lemma pretty_N_go_head (x : N) (s : string) :
  (0 < x)%N ->
  exists c r, pretty_N_go x s = String c r
              /\ (49 <= N_of_ascii c <= 57)%N.
Proof.
  revert s. induction (N.lt_wf_0 x) as [x _ IH]. intros s Hx.
  rewrite pretty_N_go_step by done.
  destruct (decide (x `div` 10 = 0)%N) as [Hq | Hq].
  - rewrite Hq, pretty_N_go_0. eexists _, _. split; [done |].
    assert (x < 10)%N as Hlt by (apply N.div_small_iff in Hq; [done | done]).
    rewrite N.mod_small by done.
    assert (x = 1 \/ x = 2 \/ x = 3 \/ x = 4 \/ x = 5 \/ x = 6
            \/ x = 7 \/ x = 8 \/ x = 9)%N as H by lia.
    destruct H as [-> | [-> | [-> | [-> | [-> | [-> | [-> | [-> | ->]]]]]]]];
      by compute.
  - apply IH; [apply N.div_lt; lia | by apply N.neq_0_lt_0].
Qed.

Lemma pretty_nat_head (n : nat) :
  exists c r, pretty n = String c r /\ (48 <= N_of_ascii c <= 57)%N.
Proof.
  unfold pretty, pretty_nat, pretty, pretty_N. case_decide as Hn.
  - eexists _, _. split; [done | by compute].
  - destruct (pretty_N_go_head (N.of_nat n) "") as (c & r & -> & Hc); [lia |].
    exists c, r. split; [done | lia].
Qed.

(** Every line of the failure list starts with a digit or a space. *)
Lemma failure_entries_head (fs : list Newman.Failure) (k : nat) (line : string) :
  line ∈ (each_failure k fs).1 ->
  exists c r, line = String c r
              /\ ((48 <= N_of_ascii c <= 57)%N \/ c = " "%char).
Proof.
  revert k. induction fs as [| f fs IH]; intros k; simpl.
  - by intros ?%elem_of_nil.
  - unfold failure_entry. destruct (Newman.source f) as [src |].
    + destruct (each_failure (S k) fs) as [more thrown] eqn:E. cbn [fst app].
      rewrite !elem_of_cons. intros [-> | [-> | Hin]].
      * destruct (pretty_nat_head (k + 1)) as (c & r & -> & Hc).
        eexists c, _. rewrite append_cons. split; [done | by left].
      * eexists _, _. rewrite append_cons. split; [done | by right].
      * apply (IH (S k)). by rewrite E.
    + cbn [fst]. rewrite list_elem_of_singleton. intros ->.
      destruct (pretty_nat_head (k + 1)) as (c & r & -> & Hc).
      eexists c, _. rewrite append_cons. split; [done | by left].
Qed.

Ltac line_clash H :=
  first [ discriminate H
        | rewrite ?append_cons in H; discriminate H
        | vm_compute in H; discriminate H ].

Ltac split_cases H := repeat (destruct H as [H | H]).

Ltac not_a_line :=
  let H := fresh "H" in
  rewrite ?elem_of_cons, ?elem_of_nil; intros H; split_cases H;
  solve [line_clash H | done].

Lemma verdict_not_in_frame (this : NewmanRunner) (p : Paths)
    (s : Newman.Summary) (line : string) :
  line = "✅ All tests passed!" \/ line = "❌ Test Failures:" ->
  (line ∉ start_lines this p ++ stats_lines s ++ timing_lines s)
  /\ (line ∉ report_lines p).
Proof.
  unfold start_lines, stats_lines, timing_lines, report_lines.
  intros [-> | ->]; split; simpl; not_a_line.
Qed.

Lemma verdict_not_in_entries (fs : list Newman.Failure) (line : string) :
  line = "✅ All tests passed!" \/ line = "❌ Test Failures:" ->
  line ∉ (each_failure 0 fs).1.
Proof.
  intros Hline Hin.
  apply (failure_entries_head fs 0) in Hin as (c & r & Heq & Hc).
  destruct Hline as [-> | ->]; injection Heq as <- _;
    (destruct Hc as [[_ Hc] | Hc]; [exfalso; apply Hc; reflexivity | discriminate Hc]).
Qed.

(** X6: among the [console.log] calls of a resolved run, one has the
    argument "All tests passed!" exactly when Newman's failure list is
    empty, and one has the argument "Test Failures:" exactly when it is
    not; the counters play no part, and the calls that print paths,
    counters and failure entries never have either text as their whole
    argument.  (An error message is printed as it is, so a message with
    a line break can still show such a line on the terminal.) *)
Theorem X6_verdict_line_follows_failure_list
    (this : NewmanRunner) (environment : option string)
    (options : option (gmap string JSValue)) (w : World) (summary : Newman.Summary) :
  (exec (runGmailTests this environment options) w).2 = Resolved summary ->
  let printed :=
    console (drop (length (trace w))
                  (trace (exec (runGmailTests this environment options) w).1)) in
  ("✅ All tests passed!" ∈ printed
   <-> Newman.failures (Newman.run summary) = [])
  /\ ("❌ Test Failures:" ∈ printed
      <-> Newman.failures (Newman.run summary) <> []).
Proof.
  rewrite exec_runGmailTests. cbn [fst snd]. rewrite trace_extend.
  set (p := paths _ _ _). set (o := runOptions _ _).
  destruct (newman_lib w _ o) as [e | s]; [done |]. unfold settle.
  destruct (callback_error s) eqn:Hcompletes; [done |]. intros [= ->].
  rewrite drop_app_length. cbn [done_trace]. rewrite Hcompletes.
  change (LNewman ?a ?b :: ?l) with ([LNewman a b] ++ l).
  rewrite !map_app, !console_app, !console_logs.
  change (console [LNewman o (Newman.Ok summary)]) with (@nil string).
  change (console (LDate ?iso :: map LLog ?l)) with (console (map LLog l)).
  rewrite console_logs. cbn [app].
  destruct (verdict_not_in_frame this p summary "✅ All tests passed!") as [F1 R1];
    [by left |].
  destruct (verdict_not_in_frame this p summary "❌ Test Failures:") as [F2 R2];
    [by right |].
  pose proof (verdict_not_in_entries (Newman.failures (Newman.run summary))
                "✅ All tests passed!" (or_introl eq_refl)) as E1.
  pose proof (verdict_not_in_entries (Newman.failures (Newman.run summary))
                "❌ Test Failures:" (or_intror eq_refl)) as E2.
  rewrite !elem_of_app in F1, F2. clear Hcompletes. unfold failure_lines.
  assert (Hne : "❌ Test Failures:" <> "✅ All tests passed!") by discriminate.
  set (A := start_lines this p) in *. set (B := stats_lines summary) in *.
  set (C := timing_lines summary) in *. set (D := report_lines p) in *.
  clearbody A B C D.
  destruct (Newman.failures (Newman.run summary)) as [| f fs].
  - change (0 <? length (@nil Newman.Failure))%nat with false. cbn iota.
    cbn [fst].
    repeat setoid_rewrite elem_of_app. setoid_rewrite list_elem_of_singleton.
    split; split; try done; try tauto.
  - change (0 <? length (f :: fs))%nat with true. cbn iota.
    destruct (each_failure 0 (f :: fs)) as [E thrown]. cbn [fst] in *.
    clear thrown.
    repeat setoid_rewrite elem_of_app. setoid_rewrite elem_of_cons.
    split; split; try done; try tauto.
    intros [H | [H | [H | [[H | H] | H]]]]; try tauto. by symmetry in H.
Qed.

Lemma X6_witness :
  let w := Sample.world "2026-11-03T10:20:30.123Z" 200 (Some Sample.token)
                         (Newman.Ok Sample.failing) in
  "❌ Test Failures:"
    ∈ console (trace (exec (runGmailTests Sample.runner None None) w).1).
Proof.
  intros w.
  destruct (X6_verdict_line_follows_failure_list Sample.runner None None w
              Sample.failing) as [_ [_ H]]; [reflexivity |].
  apply H. discriminate.
Defined.

End Report.

(** ** The configuration of each mode *)

Section Modes.
Import Js Node Runner.

(** X7: whatever the command line, the one Newman call of a run gets the
    collection, environment and data files of the runner's directories
    (the environment file named after the environment argument), the
    four reporters, a timeout of 30000 and [insecure] off.  The smoke
    selector adds bail, one iteration, a delay of 1000 and the two smoke
    folders; the performance selector runs without bail and without
    folder filter, with a delay of 500 and the iteration count
    [parseInt(args[2]) || 5], a number other than zero; every other
    selector runs without bail and without folder filter, once, with a
    delay of 1000. *)
Theorem X7_mode_configuration
    (this : NewmanRunner) (args : list string) (w : World) :
  exists o res timestamp,
    newman_calls (trace (exec (main this args) w).1)
    = newman_calls (trace w) ++ [(o, res)]
    /\ o !! "collection"
       = Some (JStr (collectionPath (paths this (environment args) timestamp)))
    /\ o !! "environment"
       = Some (JStr (path_join [environmentsDir this;
                                "Gmail_API_" +:+ environment args
                                +:+ ".postman_environment.json"]))
    /\ o !! "data" = Some (JStr (path_join [dataDir this; "test_data.csv"]))
    /\ o !! "reporters"
       = Some (JArr [JStr "html"; JStr "json"; JStr "junit"; JStr "cli"])
    /\ o !! "timeout" = Some (JNum 30000)
    /\ o !! "insecure" = Some (JBool false)
    /\ (toLowerCase (command args) = "smoke" ->
        o !! "bail" = Some (JBool true)
        /\ o !! "iterationCount" = Some (JNum 1)
        /\ o !! "delayRequest" = Some (JNum 1000)
        /\ o !! "folder"
           = Some (JArr [JStr "Authentication"; JStr "Profile & User Info"]))
    /\ (toLowerCase (command args) = "performance" ->
        o !! "bail" = Some (JBool false)
        /\ o !! "delayRequest" = Some (JNum 500)
        /\ o !! "folder" = None
        /\ o !! "iterationCount" = Some (js_or (parseInt (args !! 2%nat)) (JNum 5))
        /\ ((exists n, n <> 0%Z
                /\ js_or (parseInt (args !! 2%nat)) (JNum 5) = JNum n)
            \/ (exists b, js_or (parseInt (args !! 2%nat)) (JNum 5) = JInfinity b)))
    /\ (toLowerCase (command args) <> "smoke" ->
        toLowerCase (command args) <> "performance" ->
        o !! "bail" = Some (JBool false)
        /\ o !! "iterationCount" = Some (JNum 1)
        /\ o !! "delayRequest" = Some (JNum 1000)
        /\ o !! "folder" = None).
Proof.
  destruct (dispatch_cases this args)
    as [[Hsel Hd] | [(Hsel & Hd) | (Hs & Hp & Hd)]];
    destruct (exec_main_shape this args w _ _ Hd) as (ts & res & Hcalls);
    eexists _, res, ts; (split; [exact Hcalls |]); cbn [default].
  - repeat split; try run_lookup; congruence.
  - do 6 (split; [run_lookup |]).
    split; [intros Hsmoke; congruence |]. split; [| intros _ Hp; congruence].
    intros _. do 3 (split; [run_lookup |]).
    split; [| apply parseInt_or_five].
    apply performance_iterationCount, parseInt_or_five_truthy.
  - repeat split; try run_lookup; congruence.
Qed.

Lemma X7_witness :
  let w := Sample.world "2026-11-03T10:20:30.123Z" 200 (Some Sample.token)
                         (Newman.Ok (Sample.passing 120)) in
  exists o, (newman_calls (trace (exec (main Sample.runner ["Smoke"; "Production"]) w).1)).*1
            = [o]
            /\ o !! "bail" = Some (JBool true)
            /\ o !! "environment"
               = Some (JStr "/repo/environments/Gmail_API_Production.postman_environment.json").
Proof.
  intros w.
  destruct (X7_mode_configuration Sample.runner ["Smoke"; "Production"] w)
    as (o & res & ts & Hcalls & _ & Henv & _ & _ & _ & _ & Hsmoke & _).
  exists o. rewrite Hcalls. split; [reflexivity |].
  split; [apply Hsmoke; reflexivity | exact Henv].
Defined.

End Modes.

(** ** Reading back decimal numerals *)

Section Numerals.
Import Js Node Runner.

Lemma skip_whitespace_graphic (c : ascii) (r : string) :
  ((33 <=? N_of_ascii c) && (N_of_ascii c <=? 126))%N = true ->
  skip_whitespace (String c r) = String c r.
Proof.
  destruct c as [[] [] [] [] [] [] [] []]; intros H; try discriminate H;
    destruct r as [| b [| d r3]]; reflexivity.
Qed.

Lemma strip_leading_digit (c : ascii) (r : string) :
  ((49 <=? N_of_ascii c) && (N_of_ascii c <=? 57))%N = true ->
  strip_sign (String c r) = (1%Z, String c r)
  /\ strip_radix (String c r) = (10%Z, String c r).
Proof.
  destruct c as [[] [] [] [] [] [] [] []]; intros H; try discriminate H;
    split; reflexivity.
Qed.

Lemma parse_pretty_go (x : N) :
  (0 < x)%N ->
  forall (s : string) (acc : option Z),
    exists k : Z,
      (0 <= k)%Z
      /\ parse_digits 10 (pretty_N_go x s) acc
         = parse_digits 10 s (Some (default 0 acc * 10 ^ k + Z.of_N x)%Z).
Proof.
  induction (N.lt_wf_0 x) as [x _ IH]. intros Hx s acc.
  rewrite pretty_N_go_step by done.
  pose proof (N.div_mod x 10 ltac:(done)) as Hdm.
  pose proof (N.mod_lt x 10 ltac:(done)) as Hlt.
  destruct (decide (x `div` 10 = 0)%N) as [Hq | Hq].
  - rewrite Hq, pretty_N_go_0. simpl.
    rewrite pretty_N_char_digit by done. exists 1%Z. split; [lia |].
    do 2 f_equal. rewrite Hq in Hdm. lia.
  - destruct (IH (x `div` 10)%N) with (s := String (pretty_N_char (x `mod` 10)) s)
                                      (acc := acc)
      as (k & Hk & ->); [apply N.div_lt; lia | by apply N.neq_0_lt_0 |].
    simpl. rewrite pretty_N_char_digit by done. exists (k + 1)%Z.
    split; [lia |]. do 2 f_equal. rewrite Z.pow_add_r by lia. lia.
Qed.

Lemma parse_unsigned (x : N) :
  (0 < x)%N ->
  let s := pretty_N_go x "" in
  skip_whitespace s = s /\ strip_sign s = (1%Z, s)
  /\ strip_radix s = (10%Z, s)
  /\ parse_digits 10 s None = Some (Z.of_N x).
Proof.
  intros Hx s.
  destruct (pretty_N_go_head x "" Hx) as (c & r & Hs & Hc). fold s in Hs.
  assert (((49 <=? N_of_ascii c) && (N_of_ascii c <=? 57))%N = true) as Hd.
  { apply andb_true_intro. split; apply N.leb_le; lia. }
  assert (((33 <=? N_of_ascii c) && (N_of_ascii c <=? 126))%N = true) as Hg.
  { apply andb_true_intro. split; apply N.leb_le; lia. }
  rewrite Hs. split; [by apply skip_whitespace_graphic |].
  destruct (strip_leading_digit c r Hd) as [-> ->]. split; [done |].
  split; [done |]. rewrite <- Hs. unfold s.
  destruct (parse_pretty_go x Hx "" None) as (k & _ & ->). simpl.
  f_equal; lia.
Qed.

(** Up to 2^53 in magnitude an integer is its own Number value. *)
Lemma number_safe (n : Z) : (Z.abs n <= 2 ^ 53)%Z -> number n = JNum n.
Proof.
  intros Hn. unfold number.
  destruct (Z.ltb_spec (Z.abs n) (2 ^ 53)) as [_ | Hge]; [done |].
  change (2 ^ 53)%Z with 9007199254740992%Z in *.
  assert (n = 9007199254740992 \/ n = -9007199254740992)%Z as [-> | ->] by lia;
    vm_compute; reflexivity.
Qed.

(** The Number value of an integer other than zero is not zero. *)
Lemma number_truthy (n : Z) : n <> 0%Z -> truthy (number n) = true.
Proof.
  intros Hn. unfold number.
  destruct (Z.ltb_spec (Z.abs n) (2 ^ 53)) as [_ | Hge].
  { simpl. by destruct (Z.eqb_spec n 0). }
  cbv zeta. destruct (2 ^ 1024 <=? _)%Z; [done |].
  set (a := Z.abs n) in *. set (e := (Z.log2 a - 52)%Z).
  set (q := Z.shiftr a e).
  match goal with
  | |- context [Z.shiftl ?x e] => set (q' := x)
  end.
  assert (0 < a)%Z as Ha by (change (2 ^ 53)%Z with 9007199254740992%Z in Hge; lia).
  assert (53 <= Z.log2 a)%Z as Hlog.
  { rewrite <- (Z.log2_pow2 53) by lia. by apply Z.log2_le_mono. }
  assert (0 < e)%Z as He by (unfold e; lia).
  assert (0 < 2 ^ e)%Z as Hpow by (apply Z.pow_pos_nonneg; lia).
  assert (2 ^ 52 <= q)%Z as Hq.
  { unfold q. rewrite Z.shiftr_div_pow2 by lia.
    apply Z.div_le_lower_bound; [done |].
    rewrite <- Z.pow_add_r by lia. replace (e + 52)%Z with (Z.log2 a) by (unfold e; lia).
    by apply Z.log2_spec. }
  assert (0 < q')%Z as Hq'.
  { assert (0 < 2 ^ 52)%Z by (apply Z.pow_pos_nonneg; lia).
    unfold q'. destruct (_ || _)%bool; lia. }
  simpl. rewrite Z.shiftl_mul_pow2 by lia.
  destruct (Z.eqb_spec (Z.sgn n * (q' * 2 ^ e)) 0) as [H0 | _]; [| done].
  assert (0 < q' * 2 ^ e)%Z as Hv by (by apply Z.mul_pos_pos).
  clearbody q' e. destruct n as [| p | p]; [done | |];
    change (Z.sgn _) with 1%Z in H0 || change (Z.sgn _) with (-1)%Z in H0; lia.
Qed.

(** A double takes the even neighbour on a tie, and large numerals read
    as an infinity. *)
Example number_rounds_beyond_2_53 :
  number 9007199254740993 = JNum 9007199254740992
  /\ number 9007199254740995 = JNum 9007199254740996
  /\ number (- 9007199254740993) = JNum (- 9007199254740992)
  /\ number (2 ^ 1024 - 2 ^ 970 - 1) = JNum (2 ^ 1024 - 2 ^ 971)
  /\ number (2 ^ 1024 - 2 ^ 970) = JInfinity false
  /\ number (- 10 ^ 400) = JInfinity true.
Proof. vm_compute. repeat split. Qed.

Lemma parseInt_pretty (z : Z) : parseInt_string (pretty z) = number z.
Proof.
  destruct z as [| p | p]; [reflexivity | |].
  - change (pretty (Z.pos p)) with (pretty_N_go (N.pos p) "").
    destruct (parse_unsigned (N.pos p)) as (Hw & Hsign & Hradix & Hparse); [lia |].
    unfold parseInt_string. rewrite Hw, Hsign, Hradix, Hparse. f_equal; lia.
  - change (pretty (Z.neg p)) with (String "-" (pretty_N_go (N.pos p) "")).
    destruct (parse_unsigned (N.pos p)) as (Hw & Hsign & Hradix & Hparse); [lia |].
    unfold parseInt_string. rewrite skip_whitespace_graphic by reflexivity.
    cbn [strip_sign]. rewrite Hradix, Hparse. f_equal; lia.
Qed.

(** The performance branch with a third argument that [parseInt] reads
    as a number other than zero. *)
Lemma performance_iterations
    (this : NewmanRunner) (selector environment word : string) (v : JSValue)
    (w : World) :
  toLowerCase selector = "performance" ->
  parseInt_string word = v ->
  truthy v = true ->
  exists o res,
    newman_calls (trace (exec (main this [selector; environment; word]) w).1)
    = newman_calls (trace w) ++ [(o, res)]
    /\ o !! "iterationCount" = Some v
    /\ o !! "iterations" = Some v
    /\ o !! "delayRequest" = Some (JNum 500).
Proof.
  intros Hsel Hword Hv.
  assert (selector <> "") as Hne by (intros ->; discriminate Hsel).
  assert (command [selector; environment; word] = selector) as Hcmd.
  { unfold command. simpl. by destruct (String.eqb_spec selector ""). }
  destruct (dispatch_cases this [selector; environment; word])
    as [[Hs _] | [(_ & Hd) | (_ & Hp & _)]];
    [rewrite Hcmd in Hs; congruence | | rewrite Hcmd in Hp; congruence].
  change (parseInt ([selector; environment; word] !! 2%nat))
    with (parseInt_string word) in Hd.
  rewrite Hword in Hd. unfold js_or in Hd. rewrite Hv in Hd.
  destruct (exec_main_shape this _ w _ _ Hd) as (ts' & res' & Hcalls').
  eexists _, res'. split; [exact Hcalls' |]. cbn [default]. split; [| split].
  - by apply performance_iterationCount.
  - unfold runOptions. by apply lookup_union_Some_l.
  - unfold runOptions. rewrite lookup_union_r by reflexivity. reflexivity.
Qed.

Lemma performance_numeral
    (this : NewmanRunner) (selector environment : string) (n : Z) (w : World) :
  toLowerCase selector = "performance" ->
  exists o res,
    newman_calls (trace (exec (main this [selector; environment; pretty n]) w).1)
    = newman_calls (trace w) ++ [(o, res)]
    /\ o !! "iterationCount" = Some (if (n =? 0)%Z then JNum 5 else number n)
    /\ o !! "iterations" = Some (if (n =? 0)%Z then JNum 5 else number n)
    /\ o !! "delayRequest" = Some (JNum 500).
Proof.
  intros Hsel. destruct (Z.eqb_spec n 0) as [-> | Hn].
  - assert (selector <> "") as Hne by (intros ->; discriminate Hsel).
    assert (command [selector; environment; pretty 0%Z] = selector) as Hcmd.
    { unfold command. simpl. by destruct (String.eqb_spec selector ""). }
    destruct (dispatch_cases this [selector; environment; pretty 0%Z])
      as [[Hs _] | [(_ & Hd) | (_ & Hp & _)]];
      [rewrite Hcmd in Hs; congruence | | rewrite Hcmd in Hp; congruence].
    change (js_or (parseInt ([selector; environment; pretty 0%Z] !! 2%nat)) (JNum 5))
      with (JNum 5) in Hd.
    destruct (exec_main_shape this _ w _ _ Hd) as (ts' & res' & Hcalls').
    eexists _, res'. split; [exact Hcalls' |]. cbn [default]. split; [| split].
    + by apply performance_iterationCount.
    + unfold runOptions. by apply lookup_union_Some_l.
    + unfold runOptions. rewrite lookup_union_r by reflexivity. reflexivity.
  - apply performance_iterations; [done | apply parseInt_pretty |].
    by apply number_truthy.
Qed.

(** X8: with the performance selector and the decimal numeral of [n] as
    third argument, the iteration count Newman gets is the Number value
    of [n], and 5 when [n] is zero.  Up to 2^53 in magnitude that is [n]
    itself, negative [n] included; beyond, it is the double nearest to
    [n]. *)
Theorem X8_performance_iterations_from_numeral
    (this : NewmanRunner) (selector environment : string) (n : Z) (w : World) :
  toLowerCase selector = "performance" ->
  exists o res,
    newman_calls (trace (exec (main this [selector; environment; pretty n]) w).1)
    = newman_calls (trace w) ++ [(o, res)]
    /\ o !! "iterationCount" = Some (if (n =? 0)%Z then JNum 5 else number n)
    /\ o !! "iterations" = Some (if (n =? 0)%Z then JNum 5 else number n)
    /\ (n <> 0%Z -> (Z.abs n <= 2 ^ 53)%Z ->
        o !! "iterationCount" = Some (JNum n)).
Proof.
  intros Hsel.
  destruct (performance_numeral this selector environment n w Hsel)
    as (o & res & Hcalls & Hcount & Hraw & _).
  exists o, res. split; [done |]. split; [done |]. split; [done |].
  intros Hn Hsafe. rewrite Hcount.
  destruct (Z.eqb_spec n 0); [done |]. by rewrite number_safe.
Qed.

Lemma X8_witness :
  let w := Sample.world "2026-11-03T10:20:30.123Z" 200 (Some Sample.token)
                         (Newman.Ok (Sample.passing 120)) in
  exists o, (newman_calls
               (trace (exec (main Sample.runner ["performance"; "Development"; "12"])
                            w).1)).*1 = [o]
            /\ o !! "iterationCount" = Some (JNum 12).
Proof.
  intros w.
  destruct (X8_performance_iterations_from_numeral Sample.runner "performance"
              "Development" 12 w) as (o & res & Hcalls & _ & _ & Hcount);
    [reflexivity |].
  exists o. split; [| apply Hcount; [discriminate | by vm_compute]].
  change (pretty 12%Z) with "12" in Hcalls. by rewrite Hcalls.
Defined.

End Numerals.

(** ** The shell runner *)

Section ShellRunner.
Import Js TestRunner.

Lemma and_then_lines (a b : Run) (x : Line) :
  x ∈ (and_then a b).1 <-> x ∈ a.1 \/ (a.2 = None /\ x ∈ b.1).
Proof.
  unfold and_then. destruct a as [la [c |]]; simpl.
  - split; [by left | by intros [? | [? ?]]].
  - rewrite elem_of_app. split.
    + intros [H | H]; [by left | by right].
    + intros [H | [_ H]]; [by left | by right].
Qed.

Lemma and_then_continue (a b : Run) :
  a.2 = None -> and_then a b = (a.1 ++ b.1, b.2).
Proof. unfold and_then. by intros ->. Qed.

Lemma and_then_stop (a b : Run) (c : Z) : a.2 = Some c -> and_then a b = a.
Proof. unfold and_then. by intros ->. Qed.

Lemma and_then_status (a b : Run) :
  (and_then a b).2 = match a.2 with Some c => Some c | None => b.2 end.
Proof. unfold and_then. by destruct a as [la [c |]]. Qed.

Lemma call_status (sys : System) (step : Step) :
  (call sys step).2 = None <-> status sys step = 0%Z.
Proof.
  unfold call. simpl. destruct (Z.eqb_spec (status sys step) 0); split; try done.
Qed.

Lemma call_exit (sys : System) (step : Step) (c : Z) :
  (call sys step).2 = Some c -> c = status sys step /\ c <> 0%Z.
Proof.
  unfold call. simpl. destruct (Z.eqb_spec (status sys step) 0); [done |].
  by intros [= <-].
Qed.

Lemma is_prefix_spec (p s : string) :
  is_prefix p s = true <-> exists post, s = p +:+ post.
Proof.
  revert s. induction p as [| a p IH]; intros s; simpl.
  - split; [by exists s | done].
  - destruct s as [| b s].
    + split; [done | by intros [post ?]].
    + rewrite andb_true_iff, IH. split.
      * intros [->%Ascii.eqb_eq [post ->]]. by exists post.
      * intros [post Heq]. rewrite append_cons in Heq. injection Heq as -> ->.
        split; [apply Ascii.eqb_refl | by exists post].
Qed.

(** [contains] is the substring test. *)
Lemma contains_spec (needle hay : string) :
  contains needle hay = true <-> exists pre post, hay = pre +:+ needle +:+ post.
Proof.
  split.
  - induction hay as [| a hay IH].
    + simpl. rewrite orb_false_r. intros [post ->]%is_prefix_spec.
      by exists "", post.
    + simpl. intros [[post Heq]%is_prefix_spec | Hrest]%orb_true_iff.
      * by exists "", post.
      * destruct (IH Hrest) as (pre & post & ->). by exists (String a pre), post.
  - intros (pre & post & ->). induction pre as [| a pre IH].
    + assert (is_prefix needle (needle +:+ post) = true) as Hp
        by (apply is_prefix_spec; by exists post).
      rewrite append_nil. destruct (needle +:+ post); simpl; by rewrite Hp.
    + rewrite append_cons. simpl. rewrite IH. apply orb_true_r.
Qed.

Lemma validate_lines (sys : System) (env_file : string) (step : Step) :
  Did step ∉ (validate_environment sys env_file).1.
Proof.
  unfold validate_environment. destruct (files sys !! env_file) as [content |].
  - destruct (_ || _)%bool; simpl; rewrite ?elem_of_cons, elem_of_nil;
      intros H; repeat (destruct H as [H | H]); try discriminate H; done.
  - simpl. rewrite !elem_of_cons, elem_of_nil.
    intros H; repeat (destruct H as [H | H]); try discriminate H; done.
Qed.

Lemma validate_status (sys : System) (env_file : string) :
  ((validate_environment sys env_file).2 = None
   <-> exists content,
         files sys !! env_file = Some content
         /\ contains (quoted "client_id") content = true
         /\ contains (quoted "client_secret") content = true)
  /\ ((validate_environment sys env_file).2 = None
      \/ (validate_environment sys env_file).2 = Some 1%Z).
Proof.
  unfold validate_environment. destruct (files sys !! env_file) as [content |].
  - destruct (contains (quoted "client_id") content) eqn:E1,
             (contains (quoted "client_secret") content) eqn:E2; simpl;
      (split; [split; [ try done | intros (c & [= <-] & H1 & H2); congruence ]
              | auto ]).
    intros _. by exists content.
  - simpl. split; [| by right]. split; [done | by intros (c & ? & _)].
Qed.

(** X10: the environment check passes exactly when the file exists and
    its text has ["client_id"] and ["client_secret"], each between
    double quotes, somewhere in it; it fails with status 1 otherwise,
    and it looks neither at the values nor at any other key. *)
Theorem X10_environment_validation (sys : System) (env_file : string) :
  ((validate_environment sys env_file).2 = None
   <-> exists content,
         files sys !! env_file = Some content
         /\ (exists pre post, content = pre +:+ quoted "client_id" +:+ post)
         /\ (exists pre post, content = pre +:+ quoted "client_secret" +:+ post))
  /\ ((validate_environment sys env_file).2 <> None ->
      (validate_environment sys env_file).2 = Some 1%Z)
  /\ forall step, Did step ∉ (validate_environment sys env_file).1.
Proof.
  destruct (validate_status sys env_file) as [Hiff Hor].
  split; [| split].
  - rewrite Hiff. by setoid_rewrite contains_spec.
  - by destruct Hor.
  - apply validate_lines.
Qed.

Lemma X10_witness :
  let sys := mkSystem ∅ (fun _ => 0%Z) in
  (validate_environment sys "environments/Gmail_API_Development.postman_environment.json").2
  = Some 1%Z.
Proof.
  intros sys.
  destruct (X10_environment_validation sys
              "environments/Gmail_API_Development.postman_environment.json")
    as (_ & H & _).
  apply H. discriminate.
Defined.

Lemma is_test_command_spec (c : string) :
  is_test_command c = true <-> c = "smoke" \/ c = "full" \/ c = "performance".
Proof.
  unfold is_test_command. rewrite !orb_true_iff, !String.eqb_eq. tauto.
Qed.

Lemma run_command_test (sys : System) (command environment : string) (f : Flags) :
  is_test_command command = true ->
  run_command sys command environment f
  = and_then (call sys CheckPrerequisites)
    (and_then (if validate_env f
               then validate_environment sys (environment_file environment)
               else skip)
    (and_then (if clean_before f then call sys CleanReports else skip)
    (and_then (run_tests sys command environment (iterations f))
              (call sys ShowResults)))).
Proof.
  intros [-> | [-> | ->]]%is_test_command_spec; reflexivity.
Qed.

Lemma run_tests_known (sys : System) (command environment iterations : string) :
  is_test_command command = true ->
  exists argv,
    Shell.run_tests command environment iterations = Some argv
    /\ run_tests sys command environment iterations
       = and_then (say (Status ("Running " +:+ command +:+ " tests in " +:+ environment
                                +:+ " environment...")))
                  (call sys (Node argv)).
Proof.
  intros [-> | [-> | ->]]%is_test_command_spec; eexists; split; reflexivity.
Qed.

Ltac no_such_line H :=
  rewrite ?and_then_lines in H; unfold call, say, exit, skip in H; simpl in H;
  rewrite ?elem_of_cons, ?elem_of_nil in H;
  repeat (match type of H with
          | _ \/ _ => destruct H as [H | H]
          | _ /\ _ => destruct H as [_ H]
          end);
  solve [discriminate H | done].

(** The steps of [main] are those of a test command; nothing else runs
    Node. *)
Lemma node_in_main (sys : System) (args : list string) (argv : list string) :
  Did (Node argv) ∈ (main sys args).1 ->
  exists f,
    parse_options (drop 2 args) default_flags = Options f
    /\ is_test_command (str_or (args !! 0%nat) "smoke") = true
    /\ main sys args
       = run_command sys (str_or (args !! 0%nat) "smoke")
                     (str_or (args !! 1%nat) "Development") f.
Proof.
  unfold main. intros Hin.
  destruct (parse_options (drop 2 args) default_flags) as [f | | word |] eqn:Hp;
    [| no_such_line Hin | no_such_line Hin | no_such_line Hin].
  exists f. split; [done |]. split; [| done].
  destruct (is_test_command (str_or (args !! 0%nat) "smoke")) eqn:Ht; [done |].
  unfold run_command in Hin. rewrite Ht in Hin.
  destruct (String.eqb (str_or (args !! 0%nat) "smoke") "setup");
    [no_such_line Hin |].
  destruct (String.eqb (str_or (args !! 0%nat) "smoke") "clean");
    [no_such_line Hin |].
  destruct (String.eqb (str_or (args !! 0%nat) "smoke") "help"
            || String.eqb (str_or (args !! 0%nat) "smoke") "--help"
            || String.eqb (str_or (args !! 0%nat) "smoke") "-h")%bool;
    no_such_line Hin.
Qed.

Lemma str_or_not_empty (a : option string) (d : string) :
  d <> "" -> str_or a d <> "".
Proof.
  intros Hd. unfold str_or. destruct a as [s |]; [| done].
  by destruct (String.eqb_spec s "").
Qed.

(** When Node has run, [main] is the test pipeline and every part before
    Node went through. *)
Lemma node_pipeline (sys : System) (args : list string) (argv : list string) :
  Did (Node argv) ∈ (main sys args).1 ->
  let command := str_or (args !! 0%nat) "smoke" in
  let environment := str_or (args !! 1%nat) "Development" in
  exists f,
    parse_options (drop 2 args) default_flags = Options f
    /\ is_test_command command = true
    /\ (call sys CheckPrerequisites).2 = None
    /\ (if validate_env f
        then validate_environment sys (environment_file environment)
        else skip).2 = None
    /\ (if clean_before f then call sys CleanReports else skip).2 = None
    /\ Shell.run_tests command environment (iterations f) = Some argv
    /\ main sys args
       = and_then (call sys CheckPrerequisites)
         (and_then (if validate_env f
                    then validate_environment sys (environment_file environment)
                    else skip)
         (and_then (if clean_before f then call sys CleanReports else skip)
         (and_then
            (and_then (say (Status ("Running " +:+ command +:+ " tests in "
                                    +:+ environment +:+ " environment...")))
                      (call sys (Node argv)))
            (call sys ShowResults)))).
Proof.
  intros Hin command environment.
  destruct (node_in_main sys args argv Hin) as (f & Hparse & Htest & Hmain).
  exists f. split; [done |]. split; [done |].
  rewrite Hmain, run_command_test in Hin |- * by done.
  fold command environment in Hin |- *.
  destruct (run_tests_known sys command environment (iterations f) Htest)
    as (argv' & Hargv & Hrun).
  rewrite Hrun in Hin |- *.
  rewrite !and_then_lines in Hin.
  destruct Hin as [Hin | [Hpre Hin]]; [no_such_line Hin |].
  split; [done |].
  destruct Hin as [Hin | [Hval Hin]].
  { destruct (validate_env f); [by apply validate_lines in Hin | no_such_line Hin]. }
  split; [done |].
  destruct Hin as [Hin | [Hclean Hin]].
  { destruct (clean_before f); no_such_line Hin. }
  split; [done |].
  destruct Hin as [[Hin | [_ Hin]] | [_ Hin]]; try no_such_line Hin.
  unfold call in Hin. cbn [fst] in Hin.
  apply list_elem_of_singleton in Hin. injection Hin as ->. by split.
Qed.

Lemma node_checks (sys : System) (args : list string) (argv : list string) :
  Did (Node argv) ∈ (main sys args).1 ->
  let command := str_or (args !! 0%nat) "smoke" in
  let environment := str_or (args !! 1%nat) "Development" in
  exists f,
    parse_options (drop 2 args) default_flags = Options f
    /\ (command = "smoke" \/ command = "full" \/ command = "performance")
    /\ environment <> ""
    /\ status sys CheckPrerequisites = 0%Z
    /\ (validate_env f = true ->
        exists content,
          files sys !! environment_file environment = Some content
          /\ contains (quoted "client_id") content = true
          /\ contains (quoted "client_secret") content = true)
    /\ (clean_before f = true -> status sys CleanReports = 0%Z)
    /\ argv = "node" :: "scripts/newman_runner.js" :: command :: environment
              :: (if String.eqb command "performance" then [iterations f] else []).
Proof.
  intros Hin command environment.
  destruct (node_pipeline sys args argv Hin)
    as (f & Hparse & Htest & Hpre & Hval & Hclean & Hargv & _).
  fold command environment in Htest, Hval, Hargv.
  exists f. split; [done |]. split; [by apply is_test_command_spec |].
  split; [by apply str_or_not_empty |].
  split; [by apply call_status |].
  split.
  { intros Hv. rewrite Hv in Hval. by apply validate_status in Hval. }
  split.
  { intros Hc. rewrite Hc in Hclean. by apply call_status in Hclean. }
  apply is_test_command_spec in Htest as [Hc | [Hc | Hc]];
    rewrite Hc in *; by injection Hargv as <-.
Qed.

(** X11: the shell script runs Node only for the commands smoke, full
    and performance, only when every option word was understood, after
    the prerequisites check succeeded, after the environment file passed
    validation when [--validate] was given, and after the cleaning
    succeeded when [--clean] was given; the command line is then
    [node scripts/newman_runner.js], the command, a non-empty
    environment and, for performance, the iterations. *)
Theorem X11_node_runs_only_after_checks
    (sys : System) (args : list string) (argv : list string) :
  Did (Node argv) ∈ (main sys args).1 ->
  let command := str_or (args !! 0%nat) "smoke" in
  let environment := str_or (args !! 1%nat) "Development" in
  exists f,
    parse_options (drop 2 args) default_flags = Options f
    /\ (command = "smoke" \/ command = "full" \/ command = "performance")
    /\ environment <> ""
    /\ status sys CheckPrerequisites = 0%Z
    /\ (validate_env f = true ->
        exists content,
          files sys !! environment_file environment = Some content
          /\ contains (quoted "client_id") content = true
          /\ contains (quoted "client_secret") content = true)
    /\ (clean_before f = true -> status sys CleanReports = 0%Z)
    /\ argv = "node" :: "scripts/newman_runner.js" :: command :: environment
              :: (if String.eqb command "performance" then [iterations f] else []).
Proof. apply node_checks. Qed.

Lemma X11_witness :
  let sys := mkSystem ∅ (fun _ => 0%Z) in
  status sys CheckPrerequisites = 0%Z
  /\ str_or (["performance"; "Production"; "--iterations"; "10"] !! 1%nat) "Development"
     <> "".
Proof.
  intros sys.
  destruct (X11_node_runs_only_after_checks sys
              ["performance"; "Production"; "--iterations"; "10"]
              ["node"; "scripts/newman_runner.js"; "performance"; "Production"; "10"])
    as (f & _ & _ & Henv & Hpre & _).
  - vm_compute. do 2 right. left.
  - split; [exact Hpre | exact Henv].
Defined.

(** X12: the suite the shell command names is the suite the script
    runs: for the command line the shell hands to Node, the script's
    [switch] takes the smoke branch for smoke, the full run for full and
    the performance branch for performance, each with the shell's
    environment; the fallback to the full suite for an unknown selector
    is never reached from the shell. *)
Theorem X12_shell_command_selects_suite
    (sys : System) (args : list string) (argv : list string)
    (this : Runner.NewmanRunner) :
  Did (Node argv) ∈ (main sys args).1 ->
  let command := str_or (args !! 0%nat) "smoke" in
  let environment := str_or (args !! 1%nat) "Development" in
  exists f,
    parse_options (drop 2 args) default_flags = Options f
    /\ Runner.environment (drop 2 argv) = environment
    /\ (command = "smoke" ->
        Runner.dispatch this (drop 2 argv)
        = Runner.runSmokeTests this (Some environment))
    /\ (command = "full" ->
        Runner.dispatch this (drop 2 argv)
        = Runner.runGmailTests this (Some environment) None)
    /\ (command = "performance" ->
        Runner.dispatch this (drop 2 argv)
        = Runner.runPerformanceTests this (Some environment)
            (Some (js_or (parseInt (Some (iterations f))) (JNum 5)))).
Proof.
  intros Hin command environment.
  destruct (node_checks sys args argv Hin)
    as (f & Hparse & Hcmd & Henv & _ & _ & _ & ->).
  fold command environment in Hcmd, Henv |- *.
  exists f. split; [done |].
  assert (forall rest, Runner.environment (command :: environment :: rest)
                       = environment) as Hre.
  { intros rest. unfold Runner.environment. simpl.
    by destruct (String.eqb_spec environment ""). }
  cbn [drop]. split; [apply Hre |].
  repeat split; intros Hc; rewrite Hc in *; unfold Runner.dispatch;
    rewrite Hre; reflexivity.
Qed.

Lemma X12_witness :
  let sys := mkSystem ∅ (fun _ => 0%Z) in
  Runner.dispatch Sample.runner ["smoke"; "Development"]
  = Runner.runSmokeTests Sample.runner (Some "Development").
Proof.
  intros sys.
  destruct (X12_shell_command_selects_suite sys []
              ["node"; "scripts/newman_runner.js"; "smoke"; "Development"]
              Sample.runner) as (f & _ & _ & Hsmoke & _).
  - vm_compute. do 2 right. left.
  - apply Hsmoke. reflexivity.
Defined.

(** X13: once Node has run, its exit status decides the rest: a status
    other than 0 is the exit status of the shell script and the results
    are not shown; after a status 0 the results are shown and the script
    exits with the status of that last step. *)
Theorem X13_node_status_is_propagated
    (sys : System) (args : list string) (argv : list string) :
  Did (Node argv) ∈ (main sys args).1 ->
  (status sys (Node argv) <> 0%Z ->
   exit_status (main sys args) = status sys (Node argv)
   /\ Did ShowResults ∉ (main sys args).1)
  /\ (status sys (Node argv) = 0%Z ->
      Did ShowResults ∈ (main sys args).1
      /\ exit_status (main sys args) = status sys ShowResults).
Proof.
  intros Hin.
  destruct (node_pipeline sys args argv Hin)
    as (f & _ & _ & Hpre & Hval & Hclean & _ & Hmain).
  rewrite Hmain. unfold exit_status.
  rewrite (and_then_continue _ _ Hpre), (and_then_continue _ _ Hval),
    (and_then_continue _ _ Hclean).
  rewrite (and_then_continue (say _) _ eq_refl). cbn [fst snd say].
  assert (forall step, step <> CheckPrerequisites -> step <> CleanReports ->
            Did step ∉ (call sys CheckPrerequisites).1
                        ++ (if validate_env f
                            then validate_environment sys
                                   (environment_file (str_or (args !! 1%nat) "Development"))
                            else skip).1
                        ++ (if clean_before f then call sys CleanReports else skip).1)
    as Hbefore.
  { intros step H1 H2. rewrite !elem_of_app. intros [H | [H | H]].
    - unfold call in H. cbn [fst] in H.
      apply list_elem_of_singleton in H. by injection H.
    - destruct (validate_env f); [by apply validate_lines in H | no_such_line H].
    - destruct (clean_before f); [| no_such_line H].
      unfold call in H. cbn [fst] in H.
      apply list_elem_of_singleton in H. by injection H. }
  split.
  - intros Hne.
    assert ((call sys (Node argv)).2 = Some (status sys (Node argv))) as Hst.
    { unfold call. cbn [snd]. by destruct (Z.eqb_spec (status sys (Node argv)) 0). }
    erewrite and_then_stop by exact Hst. cbn [fst snd]. rewrite Hst.
    split; [done |]. rewrite !elem_of_app.
    intros [H | [H | [H | H]]];
      [| | | unfold call in H; cbn [say fst] in H; no_such_line H];
      apply (Hbefore ShowResults); try done; rewrite !elem_of_app; tauto.
  - intros Hz.
    assert ((call sys (Node argv)).2 = None) as Hst by by apply call_status.
    rewrite and_then_continue by exact Hst. cbn [fst snd]. split.
    + rewrite !elem_of_app. do 4 right. unfold call. cbn [fst].
      by apply list_elem_of_singleton.
    + unfold call. cbn [snd].
      by destruct (Z.eqb_spec (status sys ShowResults) 0).
Qed.

Lemma X13_witness :
  let sys := mkSystem ∅ (fun step => match step with Node _ => 3 | _ => 0 end)%Z in
  exit_status (main sys ["full"]) = 3%Z.
Proof.
  intros sys.
  destruct (X13_node_status_is_propagated sys ["full"]
              ["node"; "scripts/newman_runner.js"; "full"; "Development"])
    as [Hfail _].
  - vm_compute. do 2 right. left.
  - destruct Hfail as [Hexit _]; [discriminate | exact Hexit].
Defined.

(** X14: when the first word after command and environment is not
    [--iterations], [--clean] or [--validate], the script takes no step
    at all, whatever the command: it shows the usage and exits with 0
    for [--help] and [-h], and reports an unknown option and exits with
    1 for any other word. *)
Theorem X14_unknown_option_stops_everything
    (sys : System) (args : list string) (word : string) :
  args !! 2%nat = Some word ->
  word ∉ ["--iterations"; "--clean"; "--validate"] ->
  (forall step, Did step ∉ (main sys args).1)
  /\ Usage ∈ (main sys args).1
  /\ exit_status (main sys args)
     = (if (String.eqb word "--help" || String.eqb word "-h")%bool then 0 else 1)%Z.
Proof.
  intros Hword Hnot. unfold main.
  rewrite (drop_S _ _ _ Hword). cbn [parse_options].
  rewrite !not_elem_of_cons in Hnot. destruct Hnot as (H1 & H2 & H3 & _).
  apply String.eqb_neq in H1, H2, H3. rewrite H1, H2, H3.
  destruct (String.eqb word "--help" || String.eqb word "-h")%bool.
  - repeat split; try done.
    + intros step H. no_such_line H.
    + by left.
  - repeat split; try done.
    + intros step H. no_such_line H.
    + right. by left.
Qed.

Lemma X14_witness :
  let sys := mkSystem ∅ (fun _ => 0%Z) in
  exit_status (main sys ["smoke"; "Development"; "--iteration"; "3"]) = 1%Z.
Proof.
  intros sys.
  destruct (X14_unknown_option_stops_everything sys
              ["smoke"; "Development"; "--iteration"; "3"] "--iteration")
    as (_ & _ & H).
  - reflexivity.
  - rewrite !not_elem_of_cons. repeat split; try discriminate.
    apply not_elem_of_nil.
  - exact H.
Defined.

(** X15: from the shell to Newman: for the command
    [performance <environment> --iterations <n>], with [n] a decimal
    numeral other than zero and a successful prerequisites check, the
    shell runs Node, and the script run on that command line asks
    Newman for the Number value of [n] as iteration count, which is [n]
    itself up to 2^53 in magnitude, with a delay of 500. *)
Theorem X15_iterations_reach_newman
    (sys : System) (this : Runner.NewmanRunner) (w : Node.World)
    (environment : string) (n : Z) :
  status sys CheckPrerequisites = 0%Z ->
  environment <> "" ->
  n <> 0%Z ->
  exists argv o res,
    Did (Node argv)
      ∈ (main sys ["performance"; environment; "--iterations"; pretty n]).1
    /\ Node.newman_calls (Node.trace (Node.exec (Runner.main this (drop 2 argv)) w).1)
       = Node.newman_calls (Node.trace w) ++ [(o, res)]
    /\ o !! "iterationCount" = Some (number n)
    /\ ((Z.abs n <= 2 ^ 53)%Z -> o !! "iterationCount" = Some (JNum n))
    /\ o !! "delayRequest" = Some (JNum 500).
Proof.
  intros Hpre Henv Hn.
  exists ["node"; "scripts/newman_runner.js"; "performance"; environment; pretty n].
  destruct (performance_numeral this "performance" environment n w eq_refl)
    as (o & res & Hcalls & Hcount & Hraw & Hdelay).
  exists o, res. split; [| split; [exact Hcalls |]].
  - assert (main sys ["performance"; environment; "--iterations"; pretty n]
            = run_command sys "performance" environment
                {| iterations := pretty n; clean_before := false;
                   validate_env := false |}) as ->.
    { unfold main. simpl. by destruct (String.eqb_spec environment ""). }
    rewrite run_command_test by reflexivity. cbn [validate_env clean_before iterations].
    rewrite (and_then_continue (call sys CheckPrerequisites))
      by by apply call_status.
    rewrite (and_then_continue skip) by done.
    rewrite (and_then_continue skip) by done.
    assert (run_tests sys "performance" environment (pretty n)
            = and_then (say (Status ("Running performance tests in " +:+ environment
                                     +:+ " environment...")))
                (call sys (Node ["node"; "scripts/newman_runner.js"; "performance";
                                 environment; pretty n]))) as -> by reflexivity.
    rewrite (and_then_continue (say _)) by done.
    cbn [fst]. rewrite !elem_of_app. do 3 right.
    rewrite and_then_lines. left. cbn [fst]. rewrite elem_of_app. right.
    unfold call. cbn [fst]. by apply list_elem_of_singleton.
  - destruct (Z.eqb_spec n 0) as [-> | _]; [done |].
    split; [done |]. split; [| done]. intros Hsafe. by rewrite Hcount, number_safe.
Qed.

Lemma X15_witness :
  let sys := mkSystem ∅ (fun _ => 0%Z) in
  let w := Sample.world "2026-11-03T10:20:30.123Z" 200 (Some Sample.token)
                         (Newman.Ok (Sample.passing 120)) in
  exists argv,
    Did (Node argv) ∈ (main sys ["performance"; "Production"; "--iterations"; "10"]).1.
Proof.
  intros sys w.
  destruct (X15_iterations_reach_newman sys Sample.runner w "Production" 10)
    as (argv & o & res & Hin & _); [reflexivity | discriminate | discriminate |].
  exists argv. exact Hin.
Defined.

End ShellRunner.

(** ** More on numerals, options and effects *)

Section Further.
Import Js Node Runner.

Lemma pretty_N_go_append (x : N) (s : string) :
  pretty_N_go x s = pretty_N_go x "" +:+ s.
Proof.
  revert s. induction (N.lt_wf_0 x) as [x _ IH]. intros s.
  destruct (decide (x = 0)%N) as [-> | Hx]; [by rewrite !pretty_N_go_0 |].
  rewrite !(pretty_N_go_step x) by lia.
  rewrite (IH (x `div` 10)%N) by (apply N.div_lt; lia).
  rewrite (IH (x `div` 10)%N ltac:(apply N.div_lt; lia) (String _ "")).
  by rewrite append_assoc.
Qed.

(** [parseInt] reads the leading numeral and ignores what follows. *)
Lemma parseInt_numeral_prefix (n : positive) (rest : string) :
  match rest with
  | EmptyString => True
  | String c _ => digit_value 10 c = None
  end ->
  parseInt_string (pretty (Z.pos n) +:+ rest) = number (Z.pos n).
Proof.
  intros Hrest.
  change (pretty (Z.pos n)) with (pretty_N_go (N.pos n) "").
  rewrite <- pretty_N_go_append.
  destruct (pretty_N_go_head (N.pos n) rest) as (c & r & Hs & Hc); [lia |].
  assert (((49 <=? N_of_ascii c) && (N_of_ascii c <=? 57))%N = true) as Hd.
  { apply andb_true_intro. split; apply N.leb_le; lia. }
  assert (((33 <=? N_of_ascii c) && (N_of_ascii c <=? 126))%N = true) as Hg.
  { apply andb_true_intro. split; apply N.leb_le; lia. }
  unfold parseInt_string. rewrite Hs.
  rewrite skip_whitespace_graphic by done.
  destruct (strip_leading_digit c r Hd) as [-> ->]. rewrite <- Hs.
  destruct (parse_pretty_go (N.pos n) ltac:(lia) rest None) as (k & _ & ->).
  assert (parse_digits 10 rest (Some (default 0 None * 10 ^ k + Z.of_N (N.pos n))%Z)
          = Some (Z.pos n)) as ->.
  { destruct rest as [| d rest]; simpl; [| rewrite Hrest]; f_equal; lia. }
  f_equal; lia.
Qed.

(** X9: the performance mode takes its iteration count from the leading
    numeral of the third argument and ignores what follows it: with the
    decimal numeral of a positive [n] followed by any text that does not
    start with a decimal digit, the iteration count Newman gets is the
    Number value of [n], which is [n] itself up to 2^53. *)
Theorem X9_iterations_ignore_trailing_text
    (this : NewmanRunner) (selector environment : string)
    (n : positive) (rest : string) (w : World) :
  toLowerCase selector = "performance" ->
  match rest with
  | EmptyString => True
  | String c _ => digit_value 10 c = None
  end ->
  exists o res,
    newman_calls
      (trace (exec (main this [selector; environment; pretty (Z.pos n) +:+ rest]) w).1)
    = newman_calls (trace w) ++ [(o, res)]
    /\ o !! "iterationCount" = Some (number (Z.pos n))
    /\ ((Z.pos n <= 2 ^ 53)%Z -> o !! "iterationCount" = Some (JNum (Z.pos n))).
Proof.
  intros Hsel Hrest.
  destruct (performance_iterations this selector environment
              (pretty (Z.pos n) +:+ rest) (number (Z.pos n)) w Hsel)
    as (o & res & Hcalls & Hcount & _);
    [by apply parseInt_numeral_prefix | by apply number_truthy |].
  exists o, res. split; [done |]. split; [done |].
  intros Hsafe. rewrite Hcount, number_safe; [done | by rewrite Z.abs_eq].
Qed.

Lemma X9_witness :
  let w := Sample.world "2026-11-03T10:20:30.123Z" 200 (Some Sample.token)
                         (Newman.Ok (Sample.passing 120)) in
  exists o res,
    newman_calls
      (trace (exec (main Sample.runner ["Performance"; "Staging"; "10x"]) w).1)
    = newman_calls (trace w) ++ [(o, res)]
    /\ o !! "iterationCount" = Some (JNum 10).
Proof.
  intros w.
  destruct (X9_iterations_ignore_trailing_text Sample.runner "Performance"
              "Staging" 10 "x" w) as (o & res & Hcalls & _ & Hcount);
    [reflexivity | reflexivity |].
  exists o, res. split; [exact Hcalls | apply Hcount; by vm_compute].
Defined.

Lemma fetches_logs (lines : list string) : fetches (map LLog lines) = [].
Proof. induction lines; [done | by simpl]. Qed.

Lemma fetches_done (p : Paths) (res : Newman.Result) :
  fetches (done_trace p res) = [].
Proof. destruct res; [done | apply fetches_logs]. Qed.

Lemma exec_finish_world (outcome : Completion Newman.Summary) (w : World) :
  exists t, (exec (finish outcome) w).1 = extend t w /\ fetches t = [].
Proof.
  destruct outcome as [s | e | e]; unfold finish.
  - rewrite exec_bind, exec_console_log. by eexists.
  - rewrite exec_bind, exec_console_error. by eexists.
  - exists []. by rewrite extend_nil.
Qed.

Lemma exec_main_world (this : NewmanRunner) (args : list string) (w : World) :
  exists t, (exec (main this args) w).1 = extend t w /\ fetches t = [].
Proof.
  unfold main. rewrite exec_bind.
  destruct (dispatch_shape this args) as (pre & options & ->).
  rewrite exec_run. cbn [fst snd].
  match goal with
  | |- context [exec (finish ?c) ?w'] =>
      destruct (exec_finish_world c w') as (t & -> & Ht)
  end.
  rewrite extend_extend. eexists. split; [reflexivity |].
  rewrite !fetches_app, Ht, ?fetches_logs. simpl.
  by rewrite ?fetches_app, ?fetches_logs, ?fetches_done.
Qed.

(** X16: the script run by Node never calls [fetch] itself and creates
    no directory other than the reports directory of its constructor:
    after a run the network history is as before and the directories are
    those that existed plus the reports directory. *)
Theorem X16_script_effects (dirname : string) (argv : list string) (w : World) :
  let after := (exec (script dirname argv) w).1 in
  fetches (trace after) = fetches (trace w)
  /\ dirs after = {[ path_join [dirname; ".."; "reports"] ]} ∪ dirs w
  /\ clock after = clock w /\ server after = server w
  /\ newman_lib after = newman_lib w.
Proof.
  unfold script. rewrite exec_bind, exec_new. cbn [fst snd].
  match goal with
  | |- context [exec (main ?r ?a) ?w'] =>
      destruct (exec_main_world r a w') as (t & -> & Ht)
  end.
  cbv zeta. rewrite trace_extend, fetches_app, Ht, app_nil_r.
  destruct (bool_decide (path_join [dirname; ".."; "reports"] ∈ dirs w)) eqn:E.
  - apply bool_decide_eq_true in E. cbn [dirs extend clock server newman_lib trace].
    rewrite fetches_app. simpl. rewrite app_nil_r. repeat split.
    symmetry. apply subseteq_union_1_L. by apply singleton_subseteq_l.
  - cbn [dirs extend make_dir clock server newman_lib trace].
    rewrite fetches_app. simpl. by rewrite app_nil_r.
Qed.

End Further.

Section Options.
Import Js TestRunner.

(** X17: the option words are read from left to right: when a first part
    of the words is understood, the words after it are read with the
    flags that part has set.  So a later [--iterations] replaces an
    earlier one, and a word that is not understood after an understood
    part is still reported. *)
Theorem X17_options_read_left_to_right
    (first rest : list string) (f f' : Flags) :
  parse_options first f = Options f' ->
  parse_options (first ++ rest) f = parse_options rest f'.
Proof.
  assert (forall n (words : list string) (g : Flags),
            length words <= n ->
            parse_options words g = Options f' ->
            parse_options (words ++ rest) g = parse_options rest f') as Hgen.
  { induction n as [| n IH]; intros words g Hlen.
    - destruct words; [by intros [= ->] | simpl in Hlen; lia].
    - destruct words as [| word more]; [by intros [= ->] |].
      simpl in Hlen. cbn [app parse_options].
      destruct (String.eqb word "--iterations").
      { destruct more as [| value more']; [done |]. cbn [app].
        apply IH. simpl in Hlen. lia. }
      destruct (String.eqb word "--clean"); [apply IH; lia |].
      destruct (String.eqb word "--validate"); [apply IH; lia |].
      by destruct (String.eqb word "--help" || String.eqb word "-h")%bool. }
  by apply (Hgen (length first)).
Qed.

Lemma X17_witness :
  parse_options (["--iterations"; "3"; "--clean"] ++ ["--iterations"; "7"])
                default_flags
  = Options {| iterations := "7"; clean_before := true; validate_env := false |}.
Proof.
  rewrite (X17_options_read_left_to_right ["--iterations"; "3"; "--clean"]
             ["--iterations"; "7"] default_flags
             {| iterations := "3"; clean_before := true; validate_env := false |});
    reflexivity.
Defined.

End Options.
